(** * aemet-go: the municipality directory, the two-step fetcher and the
      one-line summary, embedded in Rocq

    The development follows the Go sources:
    - the municipality table and its four lookups (package [aemet],
      [municipalities.go], lines 1-123);
    - [getRedir], [getRedirWithRetry] and [GetForecastFor] (package [aemet],
      the client file, lines 108-187);
    - the forecast records (package [aemet], the types file);
    - [extractPeriodData], [get24hPeriodData] and [buildWeatherSummary]
      (package [main], lines 125-626 of the listing of [municipalities.go]).

    Go strings are byte strings and are modelled by [string]; Go [int] values
    are only compared and printed here and are modelled by [Z]. Package-level
    variables, the HTTP client, the logger and the clock are threaded through
    an explicit state. *)

From Stdlib Require Import ZArith Ascii String DecimalString Lia.
From stdpp Require Import base option list strings gmap.

(* ===================================================================== *)
(** * Part I: the embedding                                               *)
(* ===================================================================== *)

(** ** Package [strings] of the Go library, on byte strings

    The functions below are the ASCII paths of the Go implementations: a
    cutset or a test that is pure ASCII is applied byte by byte, [ToLower]
    maps the letters [A]-[Z] and [TrimSpace] trims the six ASCII white-space
    bytes. On strings with bytes above 127 Go also maps the other Unicode
    letters and trims the other Unicode spaces; the properties of the
    lookups below use no property of [ToLower], and of [TrimSpace] only
    that it does not see ASCII white space around its argument. *)
Module GoStrings.

(** [asciiSpace]: tab, line feed, vertical tab, form feed, carriage
    return and space. *)
Definition isSpace (c : ascii) : bool :=
  let n := N_of_ascii c in
  ((9 <=? n)%N && (n <=? 13)%N) || (n =? 32)%N.

(** [TrimLeftFunc]: the suffix that starts at the first byte on which [f]
    is false. *)
Fixpoint TrimLeftFunc (f : ascii -> bool) (s : string) : string :=
  match s with
  | EmptyString => EmptyString
  | String c r => if f c then TrimLeftFunc f r else s
  end.

(** [TrimRightFunc]: the prefix that ends at the last byte on which [f]
    is false. *)
Fixpoint TrimRightFunc (f : ascii -> bool) (s : string) : string :=
  match s with
  | EmptyString => EmptyString
  | String c r =>
      match TrimRightFunc f r with
      | EmptyString => if f c then EmptyString else String c EmptyString
      | r' => String c r'
      end
  end.

(** [strings.TrimSpace]. *)
Definition TrimSpace (s : string) : string :=
  TrimRightFunc isSpace (TrimLeftFunc isSpace s).

(** Membership of a byte in a cutset. *)
Fixpoint inCutset (c : ascii) (cutset : string) : bool :=
  match cutset with
  | EmptyString => false
  | String d r => Ascii.eqb c d || inCutset c r
  end.

(** [strings.TrimLeft(s, cutset)]: removes every leading byte of [s] that
    belongs to [cutset]. *)
Definition TrimLeft (s cutset : string) : string :=
  TrimLeftFunc (fun c => inCutset c cutset) s.

(** The slice expression [s[n:]], for [n <= len(s)]. *)
Fixpoint sliceFrom (n : nat) (s : string) : string :=
  match n, s with
  | O, _ => s
  | S n', String _ r => sliceFrom n' r
  | S _, EmptyString => EmptyString
  end.

(** [strings.HasPrefix(s, prefix)]. *)
Fixpoint HasPrefix (s p : string) {struct p} : bool :=
  match p, s with
  | EmptyString, _ => true
  | String a p', String b s' => Ascii.eqb a b && HasPrefix s' p'
  | String _ _, EmptyString => false
  end.


(** [strings.Contains(s, substr)]. *)
Fixpoint Contains (s substr : string) : bool :=
  HasPrefix s substr ||
  match s with
  | EmptyString => false
  | String _ r => Contains r substr
  end.

Definition lowerByte (c : ascii) : ascii :=
  let n := N_of_ascii c in
  if (65 <=? n)%N && (n <=? 90)%N then ascii_of_N (n + 32) else c.

(** [strings.ToLower]. *)
Fixpoint ToLower (s : string) : string :=
  match s with
  | EmptyString => EmptyString
  | String c r => String (lowerByte c) (ToLower r)
  end.

(** Every byte of the string is ASCII white space. *)
Fixpoint allSpace (s : string) : bool :=
  match s with
  | EmptyString => true
  | String c r => isSpace c && allSpace r
  end.

End GoStrings.

(** ** Go errors and package [fmt] *)
Module GoFmt.

(** An [error] value: a message, or a message prefix wrapping a cause
    ([fmt.Errorf] with the verb [%w] at the end of the format). *)
Inductive error : Type :=
| ErrNew (msg : string)
| ErrWrap (prefix : string) (cause : error).

(** The method [Error()]. *)
Fixpoint Error (e : error) : string :=
  match e with
  | ErrNew msg => msg
  | ErrWrap p cause => p +:+ Error cause
  end.

(** [errors.Unwrap]. *)
Definition Unwrap (e : error) : option error :=
  match e with
  | ErrNew _ => None
  | ErrWrap _ cause => Some cause
  end.

(** A Go result pair [(T, error)]: the value when the error is nil. *)
Inductive result (T : Type) : Type :=
| Ok (v : T)
| Err (e : error).
Arguments Ok {T} v.
Arguments Err {T} e.

(** The verb [%d]. *)
Definition itoa (n : Z) : string := NilZero.string_of_int (Z.to_int n).

(** A dynamically typed value ([any]) as [encoding/json] produces it,
    seen through the verb [%s]: nil, a string, or any other kind of value
    (bool, float64, slice, map), which is kept as the text [%s] prints for
    it. *)
Inductive any : Type :=
| AnyNil
| AnyString (s : string)
| AnyOther (printed : string).

(** The verb [%s] applied to an [any]. *)
Definition verb_s (v : any) : string :=
  match v with
  | AnyNil => "%!s(<nil>)"
  | AnyString s => s
  | AnyOther printed => printed
  end.

End GoFmt.

Export GoStrings GoFmt.

(** ** A state monad for package-level variables and for effects *)
Definition M (S A : Type) : Type := S -> A * S.

Definition ret {S A} (a : A) : M S A := fun s => (a, s).
Definition bind {S A B} (m : M S A) (k : A -> M S B) : M S B :=
  fun s => let (a, s') := m s in k a s'.
Definition get {S} : M S S := fun s => (s, s).
Definition modify {S} (f : S -> S) : M S unit := fun s => (tt, f s).

Notation "x <~ m ;; k" := (bind m (fun x => k))
  (at level 100, m at next level, right associativity).
Notation "m ;;; k" := (bind m (fun _ => k))
  (at level 100, right associativity).

(** ** The municipality directory, [municipalities.go] lines 1-123 *)
Module Directory.

Record MunicipalityInfo : Type := {
  Latitude : string;
  IDOld : string;
  URL : string;
  LatitudeDec : string;
  Altitude : string;
  Capital : string;
  NumHab : string;
  ZonaComarcal : string;
  Destacada : string;
  Name : string;
  LongitudeDec : string;
  ID : string;
  Longitude : string
}.

(** The assignment [m.ID = id]. *)
Definition setID (m : MunicipalityInfo) (id : string) : MunicipalityInfo :=
  {| Latitude := Latitude m; IDOld := IDOld m; URL := URL m;
     LatitudeDec := LatitudeDec m; Altitude := Altitude m;
     Capital := Capital m; NumHab := NumHab m;
     ZonaComarcal := ZonaComarcal m; Destacada := Destacada m;
     Name := Name m; LongitudeDec := LongitudeDec m; ID := id;
     Longitude := Longitude m |}.

(** What the package reads from outside: the embedded file system and
    [json.Unmarshal] into [&municipalities], which returns the new contents
    of the slice together with its error. *)
Class Embedded : Type := {
  ReadFile : string -> result string;
  Unmarshal : string -> list MunicipalityInfo ->
              list MunicipalityInfo * option error
}.

(** Reads and parses of the dataset, in the order they happen. *)
Inductive io_event : Type :=
| IOReadFile (name : string)
| IOUnmarshal (data : string).

(** The package-level variables [municipalities] and [initialized], and
    the log of reads and parses. *)
Record Globals : Type := {
  municipalities : list MunicipalityInfo;
  initialized : bool;
  io_log : list io_event
}.

(** The state of the package when the program starts. *)
Definition start : Globals :=
  {| municipalities := []; initialized := false; io_log := [] |}.

Definition record_io (e : io_event) : M Globals unit :=
  modify (fun g => {| municipalities := municipalities g;
                      initialized := initialized g;
                      io_log := io_log g ++ [e] |}).

Definition set_municipalities (ms : list MunicipalityInfo) : M Globals unit :=
  modify (fun g => {| municipalities := ms;
                      initialized := initialized g;
                      io_log := io_log g |}).

Definition set_initialized (b : bool) : M Globals unit :=
  modify (fun g => {| municipalities := municipalities g;
                      initialized := b;
                      io_log := io_log g |}).

Section WithEmbedded.
Context `{Embedded}.

(** [initializeMunicipalities], lines 34-55. *)
Definition initializeMunicipalities : M Globals (option error) :=
  g <~ get ;;
  if initialized g then ret None
  else
    record_io (IOReadFile "data/municipalities.json") ;;;
    match ReadFile "data/municipalities.json" with
    | Err err =>
        ret (Some (ErrWrap "error reading municipalities data: " err))
    | Ok data =>
        record_io (IOUnmarshal data) ;;;
        let (ms, perr) := Unmarshal data (municipalities g) in
        set_municipalities ms ;;;
        match perr with
        | Some err =>
            ret (Some (ErrWrap "error parsing municipalities data: " err))
        | None =>
            set_municipalities
              (map (fun m => setID m (TrimLeft (ID m) "id")) ms) ;;;
            set_initialized true ;;;
            ret None
        end
    end.

(** The loop of [FindMunicipalityID], lines 65-73. *)
Fixpoint scanExactName (normalizedName : string)
    (ms : list MunicipalityInfo) : option string :=
  match ms with
  | [] => None
  | muni :: rest =>
      if String.eqb (ToLower (Name muni)) normalizedName then
        if HasPrefix (ID muni) "id" then Some (sliceFrom 2 (ID muni))
        else Some (ID muni)
      else scanExactName normalizedName rest
  end.

(** [FindMunicipalityID], lines 58-76. *)
Definition FindMunicipalityID (name : string) : M Globals (result string) :=
  ierr <~ initializeMunicipalities ;;
  match ierr with
  | Some err => ret (Err err)
  | None =>
      let normalizedName := ToLower (TrimSpace name) in
      g <~ get ;;
      match scanExactName normalizedName (municipalities g) with
      | Some id => ret (Ok id)
      | None => ret (Err (ErrNew ("municipality not found: " +:+ name)))
      end
  end.

(** The loop of [FindMunicipalitiesByPartialName], lines 87-91;
    [results] is the slice built so far. *)
Fixpoint scanPartialName (normalizedPartial : string)
    (ms results : list MunicipalityInfo) : list MunicipalityInfo :=
  match ms with
  | [] => results
  | muni :: rest =>
      if Contains (ToLower (Name muni)) normalizedPartial then
        scanPartialName normalizedPartial rest (results ++ [muni])
      else scanPartialName normalizedPartial rest results
  end.

(** [FindMunicipalitiesByPartialName], lines 79-94. *)
Definition FindMunicipalitiesByPartialName (partialName : string)
    : M Globals (result (list MunicipalityInfo)) :=
  ierr <~ initializeMunicipalities ;;
  match ierr with
  | Some err => ret (Err err)
  | None =>
      let normalizedPartial := ToLower (TrimSpace partialName) in
      g <~ get ;;
      ret (Ok (scanPartialName normalizedPartial (municipalities g) []))
  end.

(** [GetAllMunicipalities], lines 97-102. *)
Definition GetAllMunicipalities : M Globals (result (list MunicipalityInfo)) :=
  ierr <~ initializeMunicipalities ;;
  match ierr with
  | Some err => ret (Err err)
  | None => g <~ get ;; ret (Ok (municipalities g))
  end.

(** The loop of [GetMunicipalityByID], lines 116-120. *)
Fixpoint scanID (searchID : string) (ms : list MunicipalityInfo)
    : option MunicipalityInfo :=
  match ms with
  | [] => None
  | muni :: rest =>
      if String.eqb (ID muni) searchID then Some muni
      else scanID searchID rest
  end.

(** [GetMunicipalityByID], lines 105-123. *)
Definition GetMunicipalityByID (id : string)
    : M Globals (result MunicipalityInfo) :=
  ierr <~ initializeMunicipalities ;;
  match ierr with
  | Some err => ret (Err err)
  | None =>
      let searchID :=
        if negb (HasPrefix id "id") then "id" +:+ id else id in
      g <~ get ;;
      match scanID searchID (municipalities g) with
      | Some muni => ret (Ok muni)
      | None => ret (Err (ErrNew ("municipality ID not found: " +:+ id)))
      end
  end.

End WithEmbedded.

End Directory.

Export Directory.

(** ** The directory in the words of the specification *)
Module DirectorySpec.

(** A call of the directory: the one-time load or one of the four public
    lookups. *)
Inductive call : Type :=
| CallInitialize
| CallFindMunicipalityID (name : string)
| CallFindMunicipalitiesByPartialName (partialName : string)
| CallGetAllMunicipalities
| CallGetMunicipalityByID (id : string).

Section WithEmbedded.
Context `{Embedded}.

Definition run_call (c : call) : M Globals unit :=
  match c with
  | CallInitialize => initializeMunicipalities ;;; ret tt
  | CallFindMunicipalityID name => FindMunicipalityID name ;;; ret tt
  | CallFindMunicipalitiesByPartialName partialName =>
      FindMunicipalitiesByPartialName partialName ;;; ret tt
  | CallGetAllMunicipalities => GetAllMunicipalities ;;; ret tt
  | CallGetMunicipalityByID id => GetMunicipalityByID id ;;; ret tt
  end.

Fixpoint run_calls (cs : list call) : M Globals unit :=
  match cs with
  | [] => ret tt
  | c :: rest => run_call c ;;; run_calls rest
  end.

(** The states of the package that a program can be in: the start state
    and whatever calls of the directory lead to. *)
Inductive reachable : Globals -> Prop :=
| reachable_start : reachable start
| reachable_call (g : Globals) (c : call) :
    reachable g -> reachable (snd (run_call c g)).

(** The error [e] is what every public lookup returns in state [g]. *)
Definition propagated (g : Globals) (e : error) : Prop :=
  (forall name, fst (FindMunicipalityID name g) = Err e) /\
  (forall s, fst (FindMunicipalitiesByPartialName s g) = Err e) /\
  fst (GetAllMunicipalities g) = Err e /\
  (forall id, fst (GetMunicipalityByID id g) = Err e).

End WithEmbedded.




(** The [NotFound] errors of the directory. *)
Definition isNotFound (e : error) : bool :=
  match e with
  | ErrNew msg =>
      HasPrefix msg "municipality not found: " ||
      HasPrefix msg "municipality ID not found: "
  | ErrWrap _ _ => false
  end.

(** A bare numeric code: decimal digits only. *)
Definition isDigit (c : ascii) : bool :=
  let n := N_of_ascii c in (48 <=? n)%N && (n <=? 57)%N.

Fixpoint numeric (code : string) : bool :=
  match code with
  | EmptyString => true
  | String c r => isDigit c && numeric r
  end.

(** Every stored identifier is what the load leaves: it starts neither
    with [i] nor with [d]. *)
Definition ids_stripped (g : Globals) : Prop :=
  initialized g = true ->
  Forall (fun m => TrimLeft (ID m) "id" = ID m) (municipalities g).

(** *** A small dataset *)

Definition record (id name : string) : MunicipalityInfo :=
  {| Latitude := ""; IDOld := ""; URL := ""; LatitudeDec := "";
     Altitude := ""; Capital := name; NumHab := ""; ZonaComarcal := "";
     Destacada := "0"; Name := name; LongitudeDec := ""; ID := id;
     Longitude := "" |}.

Definition sample_raw : list MunicipalityInfo :=
  [ record "id08019" "Barcelona"; record "id28079" "Madrid";
    record "id15030" "A Coruna"; record "id28080" "MADRID" ].

Definition sample_json : string := "[dataset of four municipalities]".

Definition sampleEmbedded : Embedded :=
  {| ReadFile name :=
       if String.eqb name "data/municipalities.json" then Ok sample_json
       else Err (ErrNew ("open " +:+ name +:+ ": file does not exist"));
     Unmarshal data target :=
       if String.eqb data sample_json then (sample_raw, None)
       else (target, Some (ErrNew "unexpected end of JSON input")) |}.

(** The embedded file is missing. *)
Definition missingEmbedded : Embedded :=
  {| ReadFile name := Err (ErrNew ("open " +:+ name +:+ ": file does not exist"));
     Unmarshal data target := (target, None) |}.

(** The embedded file is not a JSON array of records. *)
Definition malformedEmbedded : Embedded :=
  {| ReadFile name := Ok "{";
     Unmarshal data target :=
       (target, Some (ErrNew "unexpected end of JSON input")) |}.


(** The package after the first load of the small dataset. *)
Definition loaded_sample : Globals :=
  snd (@initializeMunicipalities sampleEmbedded start).

End DirectorySpec.

Export DirectorySpec.

(** ** The forecast records of package [aemet] *)
Module ProbPrecipitacion.
Record t : Type := { Value : Z; Periodo : string }.
End ProbPrecipitacion.

Module CotaNieveProv.
Record t : Type := { Value : string; Periodo : string }.
End CotaNieveProv.

Module EstadoCielo.
Record t : Type := { Value : string; Periodo : string; Descripcion : string }.
End EstadoCielo.

Module Viento.
Record t : Type := { Direccion : string; Velocidad : Z; Periodo : string }.
End Viento.

Module RachaMax.
Record t : Type := { Value : string; Periodo : string }.
End RachaMax.

Module Dato.
Record t : Type := { Value : Z; Hora : Z }.
End Dato.

Module Temperatura.
Record t : Type := { Maxima : Z; Minima : Z; Dato : list Dato.t }.
End Temperatura.

Module Dia.
Record t : Type := {
  ProbPrecipitacion : list ProbPrecipitacion.t;
  CotaNieveProv : list CotaNieveProv.t;
  EstadoCielo : list EstadoCielo.t;
  Viento : list Viento.t;
  RachaMax : list RachaMax.t;
  Temperatura : Temperatura.t;
  SensTermica : Temperatura.t;
  HumedadRelativa : Temperatura.t;
  UvMax : Z;
  Fecha : string
}.
End Dia.

Module Prediccion.
Record t : Type := { Dia : list Dia.t }.
End Prediccion.

(** A forecast. The field [Version] is a [float64] in the source; nothing
    here computes with it and it is kept as the text of the number. *)
Module Municipality.
Record t : Type := {
  Elaborado : string;
  Nombre : string;
  Provincia : string;
  Prediccion : Prediccion.t;
  ID : Z;
  Version : string
}.
End Municipality.

(** ** The client of package [aemet] *)
Module Client.

Definition aemetApi : string := "https://opendata.aemet.es/opendata".
Definition maxRetries : Z := 3.
Definition baseBackoffMs : Z := 100.

(** [time.Millisecond], a [time.Duration] in nanoseconds. *)
Definition Millisecond : Z := 1000000.

(** [Config] and [Client]; the HTTP client and the logger of the source are
    the environment below. *)
Record Config : Type := {
  AemetApiKey : string;
  AemetWeatherStationCode : string
}.

Record Client : Type := { config : Config }.

(** What a client does to the outside, in order: a call of
    [c.httpClient.Get], a line given to [c.logger.Printf], a call of
    [time.Sleep] with its duration in nanoseconds. *)
Inductive event : Type :=
| EvGet (url : string)
| EvLog (line : string)
| EvSleep (d : Z).

(** The outside: [httpGet] is [c.httpClient.Get] followed by the reading of
    the body; it answers with an error (also when the client refuses the URL
    before anything is sent) or with the body of the response, and moves the
    world on; [sleep] lets time pass. *)
Class Remote (W : Type) : Type := {
  httpGet : string -> W -> result string * W;
  sleep : Z -> W -> W
}.

(** [json.NewDecoder(body).Decode(&t)]: the new contents of the target and
    the error. *)
Class Decoder (T : Type) : Type := {
  Decode : string -> T -> T * option error
}.

Record Process (W : Type) : Type := {
  world : W;
  trace : list event
}.
Arguments world {W} _.
Arguments trace {W} _.

Section WithRemote.
Context {W : Type} `{Remote W} `{Decoder (gmap string any)}.

Definition Get (url : string) : M (Process W) (result string) :=
  fun p =>
    let (r, w) := httpGet url (world p) in
    (r, {| world := w; trace := trace p ++ [EvGet url] |}).

Definition Printf (line : string) : M (Process W) unit :=
  modify (fun p => {| world := world p; trace := trace p ++ [EvLog line] |}).

Definition Sleep (d : Z) : M (Process W) unit :=
  modify (fun p => {| world := sleep d (world p);
                      trace := trace p ++ [EvSleep d] |}).

(** The map index expression [data[key]] on a [map[string]any]. *)
Definition index (data : gmap string any) (key : string) : any :=
  default AnyNil (data !! key).

Section WithTarget.
Context {T : Type} `{Decoder T}.

(** [getRedir], lines 110-133; [t] is the contents of the target. *)
Definition getRedir (c : Client) (path : string) (t : T)
    : M (Process W) (T * option error) :=
  r <~ Get (aemetApi +:+ "/" +:+ path +:+ "?api_key=" +:+
            AemetApiKey (config c)) ;;
  match r with
  | Err err => ret (t, Some (ErrWrap "error requesting data: " err))
  | Ok body =>
      match Decode body (∅ : gmap string any) with
      | (_, Some err) => ret (t, Some (ErrWrap "error decoding data: " err))
      | (data, None) =>
          r <~ Get (verb_s (index data "datos") +:+ "?api_key=" +:+
                    AemetApiKey (config c)) ;;
          match r with
          | Err err => ret (t, Some (ErrWrap "error requesting data: " err))
          | Ok body =>
              match Decode body t with
              | (t', Some err) =>
                  ret (t', Some (ErrWrap "error decoding data: " err))
              | (t', None) => ret (t', None)
              end
          end
      end
  end.

(** The error after the loop of [getRedirWithRetry], line 156. *)
Definition attemptsError (lastErr : option error) : error :=
  let p := "request failed after " +:+ itoa (maxRetries + 1) +:+
           " attempts: " in
  match lastErr with
  | Some err => ErrWrap p err
  | None => ErrNew (p +:+ "%!w(<nil>)")
  end.

(** The loop of [getRedirWithRetry], lines 140-156, with [n] iterations
    left, followed by the final [return]. [math.Pow(2, k)] is exact for the
    exponents 0, 1 and 2 that occur, and is written as a power of
    integers. *)
Fixpoint retryLoop (c : Client) (path : string) (n : nat) (attempt : Z)
    (t : T) (lastErr : option error) : M (Process W) (T * option error) :=
  match n with
  | O => ret (t, Some (attemptsError lastErr))
  | S n' =>
      (if (attempt >? 0)%Z then
         let backoffMs := (baseBackoffMs * 2 ^ (attempt - 1))%Z in
         Printf ("Retrying request (attempt " +:+ itoa (attempt + 1) +:+ "/"
                 +:+ itoa (maxRetries + 1) +:+ ") after " +:+ itoa backoffMs
                 +:+ "ms backoff") ;;;
         Sleep (backoffMs * Millisecond)
       else ret tt) ;;;
      r <~ getRedir c path t ;;
      match r with
      | (t', None) => ret (t', None)
      | (t', Some err) =>
          Printf ("Request failed (attempt " +:+ itoa (attempt + 1) +:+ "/"
                  +:+ itoa (maxRetries + 1) +:+ "): " +:+ Error err) ;;;
          retryLoop c path n' (attempt + 1) t' (Some err)
      end
  end.

(** [getRedirWithRetry], lines 137-157: [attempt] runs from 0 to
    [maxRetries]. *)
Definition getRedirWithRetry (c : Client) (path : string) (t : T)
    : M (Process W) (T * option error) :=
  retryLoop c path (Z.to_nat (maxRetries + 1)) 0 t None.

End WithTarget.

(** [GetForecastFor], lines 175-187. The slice [m] of pointers starts nil;
    a nil pointer is [None]. *)
Definition GetForecastFor `{Decoder (list (option Municipality.t))}
    (c : Client) (muni : string)
    : M (Process W) (result (option Municipality.t)) :=
  r <~ getRedirWithRetry c
         ("api/prediccion/especifica/municipio/diaria/" +:+ muni) [] ;;
  match r with
  | (_, Some err) => ret (Err (ErrWrap "error requesting data: " err))
  | ([], None) => ret (Err (ErrNew ("no data found for municipality " +:+ muni)))
  | (m0 :: _, None) => ret (Ok m0)
  end.

End WithRemote.

End Client.

Export Client.


(** ** Package [main]: the one-line summary *)
Module Cli.

(** [getWindDirectionEmoji], lines 152-175. *)
Definition getWindDirectionEmoji (direction : string) : string :=
  if String.eqb direction "N" then "⬇️"
  else if String.eqb direction "NE" then "↙️"
  else if String.eqb direction "E" then "⬅️"
  else if String.eqb direction "SE" then "↖️"
  else if String.eqb direction "S" then "⬆️"
  else if String.eqb direction "SW" then "↗️"
  else if String.eqb direction "W" then "➡️"
  else if String.eqb direction "NW" then "↘️"
  else if String.eqb direction "C" then "🔄"
  else "💨".

(** [getWeatherEmoji], lines 178-208. *)
Definition getWeatherEmoji (desc : string) (rainProb : Z) : string :=
  let desc := ToLower desc in
  if (rainProb >? 70)%Z then "🌧️"
  else if (rainProb >? 30)%Z then "🌦️"
  else if Contains desc "tormenta" then "⛈️"
  else if Contains desc "nieve" then "❄️"
  else if Contains desc "niebla" then "🌫️"
  else if Contains desc "nubos" then
    if Contains desc "poco" then "🌤️"
    else if Contains desc "muy" then "☁️"
    else "⛅"
  else if Contains desc "despejado" then "☀️"
  else if Contains desc "lluvia" then
    if Contains desc "escasa" then "🌦️" else "🌧️"
  else "☀️".

Record PeriodData : Type := {
  RainProb : Z;
  SkyDesc : string;
  WindDir : string;
  WindSpeed : Z
}.

(** The zero value [PeriodData{}]. *)
Definition zeroPeriodData : PeriodData :=
  {| RainProb := 0; SkyDesc := ""; WindDir := ""; WindSpeed := 0 |}.

(** The assignments [pd.RainProb = v], [pd.SkyDesc = d], and
    [pd.WindDir = dir; pd.WindSpeed = speed]. *)
Definition withRainProb (v : Z) (pd : PeriodData) : PeriodData :=
  {| RainProb := v; SkyDesc := SkyDesc pd; WindDir := WindDir pd;
     WindSpeed := WindSpeed pd |}.

Definition withSkyDesc (d : string) (pd : PeriodData) : PeriodData :=
  {| RainProb := RainProb pd; SkyDesc := d; WindDir := WindDir pd;
     WindSpeed := WindSpeed pd |}.

Definition withWind (dir : string) (speed : Z) (pd : PeriodData)
    : PeriodData :=
  {| RainProb := RainProb pd; SkyDesc := SkyDesc pd; WindDir := dir;
     WindSpeed := speed |}.

(** The map index expression [periodData[key]]. *)
Definition periodAt (periodData : gmap string PeriodData) (key : string)
    : PeriodData :=
  default zeroPeriodData (periodData !! key).

(** The four results of [extractPeriodData]. *)
Record Extracted : Type := {
  periodData : gmap string PeriodData;
  hasMorningData : bool;
  hasAfternoonData : bool;
  has24hData : bool
}.

(** The two branches on [pd, ok := periodData[key]]: an entry that is there
    is assigned to, an entry that is not is created with the assigned fields
    only. *)
Definition upsert (key : string) (assign : PeriodData -> PeriodData)
    (x : Extracted) : Extracted :=
  {| periodData :=
       match periodData x !! key with
       | Some pd => <[key := assign pd]> (periodData x)
       | None => <[key := assign zeroPeriodData]> (periodData x)
       end;
     hasMorningData := hasMorningData x;
     hasAfternoonData := hasAfternoonData x;
     has24hData := has24hData x |}.

(** The chain of tests on the period key that ends each loop body. *)
Definition markPeriod (periodo : string) (x : Extracted) : Extracted :=
  if String.eqb periodo "00-12" then
    {| periodData := periodData x; hasMorningData := true;
       hasAfternoonData := hasAfternoonData x; has24hData := has24hData x |}
  else if String.eqb periodo "12-24" then
    {| periodData := periodData x; hasMorningData := hasMorningData x;
       hasAfternoonData := true; has24hData := has24hData x |}
  else if String.eqb periodo "00-24" then
    {| periodData := periodData x; hasMorningData := hasMorningData x;
       hasAfternoonData := hasAfternoonData x; has24hData := true |}
  else x.

(** The body that the three loops of [extractPeriodData] share, lines
    229-253, 256-280 and 283-309: [periodo] is the period key of the entry
    and [assign] the assignment of its values. *)
Definition loopBody (periodo : string) (assign : PeriodData -> PeriodData)
    (x : Extracted) : Extracted :=
  if String.eqb periodo "" then
    let x := upsert "default" assign x in
    {| periodData := periodData x; hasMorningData := hasMorningData x;
       hasAfternoonData := hasAfternoonData x; has24hData := true |}
  else markPeriod periodo (upsert periodo assign x).

(** [extractPeriodData], lines 219-313. *)
Definition extractPeriodData (day : Dia.t) : Extracted :=
  let x := {| periodData := ∅; hasMorningData := false;
              hasAfternoonData := false; has24hData := false |} in
  let x := fold_left
             (fun x prob =>
                loopBody (ProbPrecipitacion.Periodo prob)
                  (withRainProb (ProbPrecipitacion.Value prob)) x)
             (Dia.ProbPrecipitacion day) x in
  let x := fold_left
             (fun x sky =>
                loopBody (EstadoCielo.Periodo sky)
                  (withSkyDesc (EstadoCielo.Descripcion sky)) x)
             (Dia.EstadoCielo day) x in
  fold_left
    (fun x wind =>
       loopBody (Viento.Periodo wind)
         (withWind (Viento.Direccion wind) (Viento.Velocidad wind)) x)
    (Dia.Viento day) x.

(** [get24hPeriodData], lines 336-355. *)
Definition get24hPeriodData (periodData : gmap string PeriodData)
    : PeriodData :=
  let data := periodAt periodData "00-24" in
  match periodData !! "default" with
  | Some defaultData =>
      let data :=
        if (RainProb data =? 0)%Z && (RainProb defaultData >? 0)%Z
        then withRainProb (RainProb defaultData) data else data in
      let data :=
        if String.eqb (SkyDesc data) "" &&
           negb (String.eqb (SkyDesc defaultData) "")
        then withSkyDesc (SkyDesc defaultData) data else data in
      if String.eqb (WindDir data) "" &&
         negb (String.eqb (WindDir defaultData) "")
      then withWind (WindDir defaultData) (WindSpeed defaultData) data
      else data
  | None => data
  end.

(** The choice of sky, rain and wind in [buildWeatherSummary], lines
    434-464: [(skyDesc, rainProb, windDir, windSpeed)]. *)
Definition chooseToday (today : Dia.t) : string * Z * string * Z :=
  let x := extractPeriodData today in
  if hasMorningData x && hasAfternoonData x then
    let morningData := periodAt (periodData x) "00-12" in
    let afternoonData := periodAt (periodData x) "12-24" in
    let (rainProb, skyDesc) :=
      if (RainProb morningData >? RainProb afternoonData)%Z
      then (RainProb morningData, SkyDesc morningData)
      else (RainProb afternoonData, SkyDesc afternoonData) in
    let (windDir, windSpeed) :=
      if (WindSpeed morningData >? WindSpeed afternoonData)%Z
      then (WindDir morningData, WindSpeed morningData)
      else (WindDir afternoonData, WindSpeed afternoonData) in
    (skyDesc, rainProb, windDir, windSpeed)
  else if has24hData x then
    let data := get24hPeriodData (periodData x) in
    (SkyDesc data, RainProb data, WindDir data, WindSpeed data)
  else ("", 0%Z, "", 0%Z).

(** The text of the summary in [buildWeatherSummary], lines 466-476. *)
Definition summaryText (nombre skyDesc : string) (minima maxima rainProb : Z)
    (windDir : string) (windSpeed : Z) : string :=
  let emoji := getWeatherEmoji skyDesc rainProb in
  let summary :=
    emoji +:+ " " +:+ nombre +:+ ": " +:+ skyDesc +:+ " " +:+ itoa minima
    +:+ "°C-" +:+ itoa maxima +:+ "°C" in
  let summary :=
    if (rainProb >? 0)%Z
    then summary +:+ " (💧 " +:+ itoa rainProb +:+ "%)" else summary in
  if negb (String.eqb windDir "") && (windSpeed >? 0)%Z
  then summary +:+ " " +:+ getWindDirectionEmoji windDir +:+ " "
       +:+ itoa windSpeed +:+ " km/h"
  else summary.

(** [buildWeatherSummary], lines 428-479. *)
Definition buildWeatherSummary (mun : Municipality.t) : result string :=
  match Prediccion.Dia (Municipality.Prediccion mun) with
  | [] => Err (ErrNew "no forecast data available")
  | today :: _ =>
      let '(skyDesc, rainProb, windDir, windSpeed) := chooseToday today in
      Ok (summaryText (Municipality.Nombre mun) skyDesc
            (Temperatura.Minima (Dia.Temperatura today))
            (Temperatura.Maxima (Dia.Temperatura today))
            rainProb windDir windSpeed)
  end.

End Cli.

Export Cli.

(** ** The summary in the words of the specification *)
Module CliSpec.

(** The values that a day reports for the period [k]: those of the last
    entry of each array that carries the key [k], and the zero value when
    there is none. *)
Definition rainOf (k : string) (day : Dia.t) : Z :=
  List.last
    (map ProbPrecipitacion.Value
       (List.filter (fun e => String.eqb (ProbPrecipitacion.Periodo e) k)
          (Dia.ProbPrecipitacion day))) 0%Z.

Definition skyOf (k : string) (day : Dia.t) : string :=
  List.last
    (map EstadoCielo.Descripcion
       (List.filter (fun e => String.eqb (EstadoCielo.Periodo e) k)
          (Dia.EstadoCielo day))) "".

Definition windOf (k : string) (day : Dia.t) : string * Z :=
  List.last
    (map (fun e => (Viento.Direccion e, Viento.Velocidad e))
       (List.filter (fun e => String.eqb (Viento.Periodo e) k)
          (Dia.Viento day))) ("", 0%Z).

(** Data for the period [k] exist: some precipitation, sky or wind entry
    carries the key. *)
Definition hasPeriod (k : string) (day : Dia.t) : bool :=
  existsb (fun e => String.eqb (ProbPrecipitacion.Periodo e) k)
    (Dia.ProbPrecipitacion day) ||
  existsb (fun e => String.eqb (EstadoCielo.Periodo e) k)
    (Dia.EstadoCielo day) ||
  existsb (fun e => String.eqb (Viento.Periodo e) k) (Dia.Viento day).

(** The period whose sky and rain the summary shows: the one with the
    strictly higher rain probability, the afternoon on a tie. *)
Definition rainierPeriod (day : Dia.t) : string :=
  if (rainOf "00-12" day >? rainOf "12-24" day)%Z then "00-12" else "12-24".

(** The period whose wind the summary shows: the one with the higher wind
    speed, the afternoon on a tie. *)
Definition windierPeriod (day : Dia.t) : string :=
  if (snd (windOf "00-12" day) >? snd (windOf "12-24" day))%Z
  then "00-12" else "12-24".

(** One loop of [extractPeriodData] over the entries of one array, given
    the period key and the assignment of an entry. *)
Definition loop {E : Type} (per : E -> string)
    (asg : E -> PeriodData -> PeriodData) (l : list E) (x : Extracted)
    : Extracted :=
  fold_left (fun x e => loopBody (per e) (asg e) x) l x.

(** *** A day with 30% in the morning and 80% in the afternoon *)

Definition noTemperatura : Temperatura.t :=
  {| Temperatura.Maxima := 0; Temperatura.Minima := 0;
     Temperatura.Dato := [] |}.

Definition rainyDay : Dia.t :=
  {| Dia.ProbPrecipitacion :=
       [ {| ProbPrecipitacion.Value := 30;
            ProbPrecipitacion.Periodo := "00-12" |};
         {| ProbPrecipitacion.Value := 80;
            ProbPrecipitacion.Periodo := "12-24" |} ];
     Dia.CotaNieveProv := [];
     Dia.EstadoCielo :=
       [ {| EstadoCielo.Value := "12"; EstadoCielo.Periodo := "00-12";
            EstadoCielo.Descripcion := "Poco nuboso" |};
         {| EstadoCielo.Value := "25"; EstadoCielo.Periodo := "12-24";
            EstadoCielo.Descripcion := "Muy nuboso con lluvia" |} ];
     Dia.Viento :=
       [ {| Viento.Direccion := "NE"; Viento.Velocidad := 20;
            Viento.Periodo := "00-12" |};
         {| Viento.Direccion := "S"; Viento.Velocidad := 10;
            Viento.Periodo := "12-24" |} ];
     Dia.RachaMax := [];
     Dia.Temperatura :=
       {| Temperatura.Maxima := 24; Temperatura.Minima := 15;
          Temperatura.Dato := [] |};
     Dia.SensTermica := noTemperatura;
     Dia.HumedadRelativa := noTemperatura;
     Dia.UvMax := 5;
     Dia.Fecha := "2025-05-20T00:00:00" |}.

(** The same day with other rain probabilities. *)
Definition dayWithRain (morning afternoon : Z) : Dia.t :=
  {| Dia.ProbPrecipitacion :=
       [ {| ProbPrecipitacion.Value := morning;
            ProbPrecipitacion.Periodo := "00-12" |};
         {| ProbPrecipitacion.Value := afternoon;
            ProbPrecipitacion.Periodo := "12-24" |} ];
     Dia.CotaNieveProv := Dia.CotaNieveProv rainyDay;
     Dia.EstadoCielo := Dia.EstadoCielo rainyDay;
     Dia.Viento := Dia.Viento rainyDay;
     Dia.RachaMax := Dia.RachaMax rainyDay;
     Dia.Temperatura := Dia.Temperatura rainyDay;
     Dia.SensTermica := Dia.SensTermica rainyDay;
     Dia.HumedadRelativa := Dia.HumedadRelativa rainyDay;
     Dia.UvMax := Dia.UvMax rainyDay;
     Dia.Fecha := Dia.Fecha rainyDay |}.

Definition rainyForecast : Municipality.t :=
  {| Municipality.Elaborado := "2025-05-20T08:00:00";
     Municipality.Nombre := "Madrid";
     Municipality.Provincia := "Madrid";
     Municipality.Prediccion := {| Prediccion.Dia := [rainyDay] |};
     Municipality.ID := 28079;
     Municipality.Version := "1.0" |}.

End CliSpec.

Export CliSpec.

(** ** The fetcher in the words of the specification *)
Module ClientSpec.

(** [DecodeError]: the error that [getRedir] returns when a body does not
    decode. *)
Definition isDecodeError (e : error) : bool :=
  match e with
  | ErrWrap p _ => String.eqb p "error decoding data: "
  | ErrNew _ => false
  end.

(** [TransportError]: the error that [getRedir] returns when a request
    fails. *)
Definition isTransportError (e : error) : bool :=
  match e with
  | ErrWrap p _ => String.eqb p "error requesting data: "
  | ErrNew _ => false
  end.

(** [NoData]. *)
Definition isNoData (e : error) : bool :=
  match e with
  | ErrNew msg => HasPrefix msg "no data found for municipality "
  | ErrWrap _ _ => false
  end.

(** The URLs requested and the durations slept in a trace. *)
Definition gets (tr : list event) : list string :=
  omap (fun e => match e with EvGet url => Some url | _ => None end) tr.

Definition sleeps (tr : list event) : list Z :=
  omap (fun e => match e with EvSleep d => Some d | _ => None end) tr.

(** The first hop of [getRedir] goes to this URL. *)
Definition firstURL (c : Client) (path : string) : string :=
  aemetApi +:+ "/" +:+ path +:+ "?api_key=" +:+ AemetApiKey (config c).

(** The second hop of [getRedir], given the decoded first body. *)
Definition secondURL (c : Client) (data : gmap string any) : string :=
  verb_s (index data "datos") +:+ "?api_key=" +:+ AemetApiKey (config c).

Section WithRemote.
Context {W : Type} `{Remote W}.

(** The process after a request to [url] that left the world in [w]. *)
Definition requested (url : string) (w : W) (p : Process W) : Process W :=
  {| world := w; trace := trace p ++ [EvGet url] |}.

(** The process after the failure of attempt number [k] (counted from 1) of
    four has been logged. *)
Definition failed (k : Z) (e : error) (p : Process W) : Process W :=
  {| world := world p;
     trace := trace p ++
       [EvLog ("Request failed (attempt " +:+ itoa k +:+ "/4): "
               +:+ Error e)] |}.

(** The process after attempt number [k] of four has been announced and
    [ms] milliseconds have been slept. *)
Definition retrying (k ms : Z) (p : Process W) : Process W :=
  {| world := sleep (ms * 1000000) (world p);
     trace := trace p ++
       [EvLog ("Retrying request (attempt " +:+ itoa k +:+ "/4) after "
               +:+ itoa ms +:+ "ms backoff");
        EvSleep (ms * 1000000)] |}.

End WithRemote.

(** *** Small worlds *)

Definition dq : string := String (ascii_of_nat 34) EmptyString.
Definition quoted (s : string) : string := dq +:+ s +:+ dq.

Definition sampleClient : Client :=
  {| config := {| AemetApiKey := "KEY"; AemetWeatherStationCode := "" |} |}.

(** The body [{"datos": "https://x/y"}]. *)
Definition datosBody : string :=
  "{" +:+ quoted "datos" +:+ ": " +:+ quoted "https://x/y" +:+ "}".

(** The body [{"a":1}]. *)
Definition payloadBody : string := "{" +:+ quoted "a" +:+ ":1}".

(** A decoder of objects that knows three bodies. *)
Definition sampleObjectDecoder : Decoder (gmap string any) :=
  {| Decode body data :=
       if String.eqb body "{}" then (data, None)
       else if String.eqb body datosBody then
         (<["datos" := AnyString "https://x/y"]> data, None)
       else if String.eqb body payloadBody then
         (<["a" := AnyOther "%!s(float64=1)"]> data, None)
       else (data, Some (ErrNew "invalid character")) |}.

(** A decoder of forecast sequences that knows [[]] and [[null]]. *)
Definition sampleForecastDecoder : Decoder (list (option Municipality.t)) :=
  {| Decode body m :=
       if String.eqb body "[]" then ([], None)
       else if String.eqb body "[null]" then ([None], None)
       else (m, Some (ErrNew "invalid character")) |}.

(** A world that counts the requests it has seen. The first hop of every
    path answers [firstBody]; ["https://x/y"] answers [secondBody]; any other
    URL is refused by the HTTP client. *)
Definition answering (firstBody secondBody : string) : Remote nat :=
  {| httpGet url w :=
       (if HasPrefix url (aemetApi +:+ "/") then Ok firstBody
        else if String.eqb url "https://x/y?api_key=KEY" then Ok secondBody
        else Err (ErrNew ("Get " +:+ url +:+ ": unsupported protocol scheme")),
        S w);
     sleep d w := w |}.

(** A world in which every request fails. *)
Definition unreachableRemote : Remote nat :=
  {| httpGet url w := (Err (ErrNew "dial tcp: connection refused"), S w);
     sleep d w := w |}.

Definition idle : Process nat := {| world := O; trace := [] |}.

(** [getRedir] and [getRedirWithRetry] of the sample client in a small
    world, with a [map[string]any] as the target. *)
Definition getRedir_in (R : Remote nat)
    : string -> gmap string any ->
      M (Process nat) (gmap string any * option error) :=
  @getRedir nat R sampleObjectDecoder (gmap string any) sampleObjectDecoder
    sampleClient.

Definition getRedirWithRetry_in (R : Remote nat)
    : string -> gmap string any ->
      M (Process nat) (gmap string any * option error) :=
  @getRedirWithRetry nat R sampleObjectDecoder (gmap string any)
    sampleObjectDecoder sampleClient.

(** [GetForecastFor] of the sample client in a small world. *)
Definition GetForecastFor_in (R : Remote nat)
    : string -> M (Process nat) (result (option Municipality.t)) :=
  @GetForecastFor nat R sampleObjectDecoder sampleForecastDecoder
    sampleClient.

End ClientSpec.

Export ClientSpec.

(** ** The rest of the client of package [aemet] *)

(** [WeatherStation] of the types file. *)
Module WeatherStation.
Record t : Type := {
  Latitude : string;
  Province : string;
  Altitude : string;
  ID : string;
  Name : string;
  IndSinop : string;
  Longitude : string
}.
End WeatherStation.

Module Construction.

(** [EnvAemetApiKey]. *)
Definition EnvAemetApiKey : string := "AEMET_API_KEY".

(** [os.Getenv]. *)
Class Environ : Type := { Getenv : string -> string }.

Section WithHandles.
Context {HC LG : Type}.

(** The pointer fields [HTTPClient] and [Logger] of [Config]; nil is
    [None]. *)
Record Handles : Type := {
  HTTPClient : option HC;
  Logger : option LG
}.

(** The three fields of a [Client]. *)
Record Built : Type := {
  client : Client;
  httpClient : HC;
  logger : LG
}.

Context `{Environ}.

(** [New], lines 72-99. [defaultHTTPClient] is the [http.Client] with the
    30-second timeout and [stderrLogger] the logger that [log.New] makes on
    standard error. *)
Definition New (defaultHTTPClient : HC) (stderrLogger : LG)
    (config : Config) (handles : Handles) : result Built :=
  let resolved :=
    if String.eqb (AemetApiKey config) "" then
      let apiKey := Getenv EnvAemetApiKey in
      if String.eqb apiKey "" then
        Err (ErrNew ("AemetApiKey is required (set via Config or " +:+
                     EnvAemetApiKey +:+ " environment variable)"))
      else
        Ok {| AemetApiKey := apiKey;
              AemetWeatherStationCode := AemetWeatherStationCode config |}
    else Ok config in
  match resolved with
  | Err err => Err err
  | Ok config =>
      Ok {| client := {| config := config |};
            logger := default stderrLogger (Logger handles);
            httpClient := default defaultHTTPClient (HTTPClient handles) |}
  end.

(** [NewWithDefaults], lines 104-106: [New(Config{})]. *)
Definition NewWithDefaults (defaultHTTPClient : HC) (stderrLogger : LG)
    : result Built :=
  New defaultHTTPClient stderrLogger
    {| AemetApiKey := ""; AemetWeatherStationCode := "" |}
    {| HTTPClient := None; Logger := None |}.

End WithHandles.

Arguments Handles : clear implicits.
Arguments Built : clear implicits.

End Construction.

Export Construction.

Module Stations.

Section WithRemote.
Context {W : Type} `{Remote W} `{Decoder (gmap string any)}.
Context `{Decoder (list WeatherStation.t)}.

(** [GetStations], lines 162-170. *)
Definition GetStations (c : Client)
    : M (Process W) (result (list WeatherStation.t)) :=
  r <~ getRedir c
         "api/valores/climatologicos/inventarioestaciones/todasestaciones"
         [] ;;
  match r with
  | (_, Some err) => ret (Err (ErrWrap "error requesting data: " err))
  | (stations, None) => ret (Ok stations)
  end.

End WithRemote.

End Stations.

Export Stations.

(** ** The whole program: directory, client and standard output *)
Module Whole.

(** The package-level variables of the directory, the process of the
    client, and the texts written to standard output, one per call, each
    followed by a new line. *)
Record Program (W : Type) : Type := {
  directory : Globals;
  process : Process W;
  stdout : list string
}.
Arguments directory {W} _.
Arguments process {W} _.
Arguments stdout {W} _.

Definition inDirectory {W A : Type} (m : M Globals A) : M (Program W) A :=
  fun s =>
    let (a, g) := m (directory s) in
    (a, {| directory := g; process := process s; stdout := stdout s |}).

Definition inProcess {W A : Type} (m : M (Process W) A) : M (Program W) A :=
  fun s =>
    let (a, p) := m (process s) in
    (a, {| directory := directory s; process := p; stdout := stdout s |}).

(** [fmt.Println(line)], and [fmt.Printf] with a format that ends in a new
    line. *)
Definition Println {W : Type} (line : string) : M (Program W) unit :=
  modify (fun s => {| directory := directory s; process := process s;
                      stdout := stdout s ++ [line] |}).

(** What a call does: it returns, or it panics. *)
Inductive outcome (A : Type) : Type :=
| Returned (a : A)
| Panicked (msg : string).
Arguments Returned {A} a.
Arguments Panicked {A} msg.

Section WithAll.
Context `{Embedded} {W : Type} `{Remote W} `{Decoder (gmap string any)}.
Context `{Decoder (list (option Municipality.t))}.

(** [GetForecastByName] of the client, lines 192-199. *)
Definition GetForecastByName (c : Client) (name : string)
    : M (Program W) (result (option Municipality.t)) :=
  r <~ inDirectory (FindMunicipalityID name) ;;
  match r with
  | Err err => ret (Err err)
  | Ok id => inProcess (GetForecastFor c id)
  end.

(** [buildWeatherSummary(mun)] on a pointer: the first statement
    dereferences [mun], which panics when it is nil. *)
Definition buildWeatherSummaryOf (mun : option Municipality.t)
    : outcome (result string) :=
  match mun with
  | None =>
      Panicked
        "runtime error: invalid memory address or nil pointer dereference"
  | Some m => Returned (buildWeatherSummary m)
  end.

(** [getDayForecastSummary] of package [main], lines 398-415. *)
Definition getDayForecastSummary (c : Client) (municipalityName : string)
    : M (Program W) (outcome (result string)) :=
  r <~ inDirectory (FindMunicipalitiesByPartialName municipalityName) ;;
  match r with
  | Err err =>
      ret (Returned
             (Err (ErrNew ("error finding municipalities: " +:+ Error err))))
  | Ok [] =>
      ret (Returned
             (Err (ErrNew ("no municipalities found matching '" +:+
                           municipalityName +:+ "'"))))
  | Ok (selectedMuni :: _) =>
      r <~ inProcess (GetForecastFor c (Directory.ID selectedMuni)) ;;
      match r with
      | Err err =>
          ret (Returned
                 (Err (ErrNew ("error getting weather data: " +:+ Error err))))
      | Ok mun => ret (buildWeatherSummaryOf mun)
      end
  end.

(** [getDayForecastSummaryByID] of package [main], lines 418-425. *)
Definition getDayForecastSummaryByID (c : Client) (municipalityID : string)
    : M (Program W) (outcome (result string)) :=
  r <~ inProcess (GetForecastFor c municipalityID) ;;
  match r with
  | Err err =>
      ret (Returned
             (Err (ErrNew ("error getting weather data: " +:+ Error err))))
  | Ok mun => ret (buildWeatherSummaryOf mun)
  end.

(** The loop of [dayCommand], lines 498-513. *)
Fixpoint dayLoop (c : Client) (useIDs : bool) (cities : list string)
    : M (Program W) (outcome (option error)) :=
  match cities with
  | [] => ret (Returned None)
  | city :: rest =>
      o <~ (if useIDs then getDayForecastSummaryByID c city
            else getDayForecastSummary c city) ;;
      match o with
      | Panicked msg => ret (Panicked msg)
      | Returned (Err err) =>
          Println ("❌ " +:+ city +:+ ": " +:+ Error err) ;;;
          dayLoop c useIDs rest
      | Returned (Ok summary) => Println summary ;;; dayLoop c useIDs rest
      end
  end.

(** [dayCommand], lines 482-516; [cities] and [useIDs] are the values of the
    flags. The client comes from [NewWithDefaults]: its HTTP client and its
    logger are the ones of the environment. *)
Definition dayCommand `{Environ} (cities : list string) (useIDs : bool)
    : M (Program W) (outcome (option error)) :=
  match cities with
  | [] => ret (Returned (Some (ErrNew "at least one city name is required")))
  | _ :: _ =>
      match NewWithDefaults tt tt with
      | Err err =>
          ret (Returned
                 (Some (ErrNew ("error creating client: " +:+ Error err))))
      | Ok built =>
          Println "🌤️  El tiempo hoy" ;;;
          Println "==============================================" ;;;
          dayLoop (client built) useIDs cities
      end
  end.

End WithAll.

End Whole.

Export Whole.

(** ** Words for the further properties *)
Module MoreSpec.

(** [strings.HasSuffix(s, suffix)]. *)
Fixpoint HasSuffix (s suffix : string) : bool :=
  String.eqb s suffix ||
  match s with
  | EmptyString => false
  | String _ r => HasSuffix r suffix
  end.

(** The duration slept before attempt number [attempt] (counted from 0) of
    the retry loop, as the loop computes it. *)
Definition backoffAt (attempt : Z) : Z :=
  (baseBackoffMs * 2 ^ (attempt - 1) * Millisecond)%Z.

(** The attempt numbers [a, a+1, ..., a+n-1]. *)
Fixpoint attemptsFrom (a : Z) (n : nat) : list Z :=
  match n with
  | O => []
  | S n' => a :: attemptsFrom (a + 1) n'
  end.

(** 100ms, 200ms and 400ms, in nanoseconds. *)
Definition backoffs : list Z := [100000000; 200000000; 400000000]%Z.

(** An error that [getRedir] can return. *)
Definition isFetchError (e : error) : bool :=
  isTransportError e || isDecodeError e.

(** The key of [periodData] under which an entry with the period key
    [periodo] is stored. *)
Definition slotOf (periodo : string) : string :=
  if String.eqb periodo "" then "default" else periodo.

(** The period keys of the entries of a day, array by array. *)
Definition periodsOf (day : Dia.t) : list string :=
  map ProbPrecipitacion.Periodo (Dia.ProbPrecipitacion day) ++
  map EstadoCielo.Periodo (Dia.EstadoCielo day) ++
  map Viento.Periodo (Dia.Viento day).

(** Some entry of the day is for the whole day: its period key is empty or
    ["00-24"]. *)
Definition hasWholeDay (day : Dia.t) : bool :=
  existsb (fun k => String.eqb k "" || String.eqb k "00-24") (periodsOf day).

(** The values that the entries stored under the key [k] leave: those of
    the last entry of each array whose slot is [k], zero when there is
    none. *)
Definition rainIn (k : string) (day : Dia.t) : Z :=
  List.last
    (map ProbPrecipitacion.Value
       (List.filter
          (fun e => String.eqb (slotOf (ProbPrecipitacion.Periodo e)) k)
          (Dia.ProbPrecipitacion day))) 0%Z.

Definition skyIn (k : string) (day : Dia.t) : string :=
  List.last
    (map EstadoCielo.Descripcion
       (List.filter (fun e => String.eqb (slotOf (EstadoCielo.Periodo e)) k)
          (Dia.EstadoCielo day))) "".

Definition windIn (k : string) (day : Dia.t) : string * Z :=
  List.last
    (map (fun e => (Viento.Direccion e, Viento.Velocidad e))
       (List.filter (fun e => String.eqb (slotOf (Viento.Periodo e)) k)
          (Dia.Viento day))) ("", 0%Z).

(** The last value of each array of a day, whatever its period key. *)
Definition lastRain (day : Dia.t) : Z :=
  List.last (map ProbPrecipitacion.Value (Dia.ProbPrecipitacion day)) 0%Z.

Definition lastSky (day : Dia.t) : string :=
  List.last (map EstadoCielo.Descripcion (Dia.EstadoCielo day)) "".

Definition lastWind (day : Dia.t) : string * Z :=
  List.last
    (map (fun e => (Viento.Direccion e, Viento.Velocidad e))
       (Dia.Viento day)) ("", 0%Z).

(** A day whose entries carry no period key, as the last days of a forecast
    do. *)
Definition farDay : Dia.t :=
  {| Dia.ProbPrecipitacion :=
       [ {| ProbPrecipitacion.Value := 0; ProbPrecipitacion.Periodo := "" |} ];
     Dia.CotaNieveProv := [];
     Dia.EstadoCielo :=
       [ {| EstadoCielo.Value := "11"; EstadoCielo.Periodo := "";
            EstadoCielo.Descripcion := "Despejado" |} ];
     Dia.Viento :=
       [ {| Viento.Direccion := ""; Viento.Velocidad := 15;
            Viento.Periodo := "" |} ];
     Dia.RachaMax := [];
     Dia.Temperatura :=
       {| Temperatura.Maxima := 30; Temperatura.Minima := 18;
          Temperatura.Dato := [] |};
     Dia.SensTermica := noTemperatura;
     Dia.HumedadRelativa := noTemperatura;
     Dia.UvMax := 7;
     Dia.Fecha := "2025-05-26T00:00:00" |}.

(** A day with morning entries only. *)
Definition morningOnlyDay : Dia.t :=
  {| Dia.ProbPrecipitacion :=
       [ {| ProbPrecipitacion.Value := 90;
            ProbPrecipitacion.Periodo := "00-12" |} ];
     Dia.CotaNieveProv := [];
     Dia.EstadoCielo :=
       [ {| EstadoCielo.Value := "25"; EstadoCielo.Periodo := "00-12";
            EstadoCielo.Descripcion := "Muy nuboso con lluvia" |} ];
     Dia.Viento :=
       [ {| Viento.Direccion := "N"; Viento.Velocidad := 30;
            Viento.Periodo := "00-12" |} ];
     Dia.RachaMax := [];
     Dia.Temperatura :=
       {| Temperatura.Maxima := 12; Temperatura.Minima := 7;
          Temperatura.Dato := [] |};
     Dia.SensTermica := noTemperatura;
     Dia.HumedadRelativa := noTemperatura;
     Dia.UvMax := 1;
     Dia.Fecha := "2025-05-21T00:00:00" |}.

(** A day further out: every entry carries the key ["00-24"]. *)
Definition allDay : Dia.t :=
  {| Dia.ProbPrecipitacion :=
       [ {| ProbPrecipitacion.Value := 5;
            ProbPrecipitacion.Periodo := "00-24" |} ];
     Dia.CotaNieveProv := [];
     Dia.EstadoCielo :=
       [ {| EstadoCielo.Value := "12"; EstadoCielo.Periodo := "00-24";
            EstadoCielo.Descripcion := "Poco nuboso" |} ];
     Dia.Viento :=
       [ {| Viento.Direccion := "SW"; Viento.Velocidad := 10;
            Viento.Periodo := "00-24" |} ];
     Dia.RachaMax := [];
     Dia.Temperatura :=
       {| Temperatura.Maxima := 27; Temperatura.Minima := 16;
          Temperatura.Dato := [] |};
     Dia.SensTermica := noTemperatura;
     Dia.HumedadRelativa := noTemperatura;
     Dia.UvMax := 6;
     Dia.Fecha := "2025-05-24T00:00:00" |}.

Definition forecastOf (nombre : string) (days : list Dia.t)
    : Municipality.t :=
  {| Municipality.Elaborado := "2025-05-20T08:00:00";
     Municipality.Nombre := nombre;
     Municipality.Provincia := "Madrid";
     Municipality.Prediccion := {| Prediccion.Dia := days |};
     Municipality.ID := 28079;
     Municipality.Version := "1.0" |}.

(** The program after the directory has moved to [g]. *)
Definition moved {W : Type} (g : Globals) (s : Program W) : Program W :=
  {| directory := g; process := process s; stdout := stdout s |}.

(** A map with a whole-day entry that has only a wind speed, and a default
    entry. *)
Definition mixedPeriods : gmap string PeriodData :=
  <["00-24" := {| RainProb := 0; SkyDesc := ""; WindDir := "";
                  WindSpeed := 9 |}]>
    (<["default" := {| RainProb := 40; SkyDesc := "Nuboso"; WindDir := "N";
                       WindSpeed := 5 |}]> ∅).

(** A small environment and a program at rest. *)
Definition keyInEnv : Environ :=
  {| Getenv name := if String.eqb name "AEMET_API_KEY" then "KEY" else "" |}.

Definition emptyEnv : Environ := {| Getenv name := "" |}.

(** A decoder of forecast sequences that also knows a body with one
    forecast. *)
Definition richForecastDecoder : Decoder (list (option Municipality.t)) :=
  {| Decode body m :=
       if String.eqb body "[forecast]" then ([Some rainyForecast], None)
       else if String.eqb body "[]" then ([], None)
       else if String.eqb body "[null]" then ([None], None)
       else (m, Some (ErrNew "invalid character")) |}.

(** [dayCommand] on the small dataset, in a small world and a small
    environment. *)
Definition dayCommand_in (R : Remote nat) (E : Environ)
    : list string -> bool -> M (Program nat) (outcome (option error)) :=
  @dayCommand sampleEmbedded nat R sampleObjectDecoder richForecastDecoder E.

Definition atRest (g : Globals) : Program nat :=
  {| directory := g; process := idle; stdout := [] |}.

End MoreSpec.

Export MoreSpec.

(* ===================================================================== *)
(** * Part II: properties                                                 *)
(* ===================================================================== *)

(** ** Byte strings *)
Section StringFacts.

Lemma append_nil_l (s : string) : "" +:+ s = s.
Proof. reflexivity. Qed.

Lemma append_cons (c : ascii) (s r : string) :
  String c s +:+ r = String c (s +:+ r).
Proof. reflexivity. Qed.

Lemma append_nil_r (s : string) : s +:+ "" = s.
Proof.
  induction s as [|c s IH]; [reflexivity |].
  now rewrite append_cons, IH.
Qed.

Lemma append_assoc (a b c : string) : (a +:+ b) +:+ c = a +:+ (b +:+ c).
Proof.
  induction a as [|x a IH]; [reflexivity |].
  now rewrite !append_cons, IH.
Qed.

(** What [TrimLeftFunc] leaves does not start with a byte it trims. *)
Lemma TrimLeftFunc_head (f : ascii -> bool) (s : string) :
  match TrimLeftFunc f s with
  | EmptyString => True
  | String c _ => f c = false
  end.
Proof.
  induction s as [|c s IH]; simpl; [exact I |].
  destruct (f c) eqn:Hc; [exact IH | exact Hc].
Qed.

Lemma TrimLeftFunc_fixed (f : ascii -> bool) (s : string) :
  match s with EmptyString => True | String c _ => f c = false end ->
  TrimLeftFunc f s = s.
Proof. destruct s as [|c s]; simpl; [reflexivity | now intros ->]. Qed.

Lemma TrimLeftFunc_idem (f : ascii -> bool) (s : string) :
  TrimLeftFunc f (TrimLeftFunc f s) = TrimLeftFunc f s.
Proof. apply TrimLeftFunc_fixed, TrimLeftFunc_head. Qed.

(** A string that [TrimLeft(_, "id")] leaves alone starts neither with
    [i] nor with [d]; in particular it is not of the form ["id" ++ x]. *)
Lemma TrimLeft_id_fixed_neq (s x : string) :
  TrimLeft s "id" = s -> String.eqb s ("id" +:+ x) = false.
Proof.
  intros Hfix. pose proof (TrimLeftFunc_head (fun c => inCutset c "id") s) as Hh.
  unfold TrimLeft in Hfix. rewrite Hfix in Hh.
  apply String.eqb_neq. intros ->. simpl in Hh. discriminate Hh.
Qed.

Lemma TrimLeft_id_fixed_no_prefix (s : string) :
  TrimLeft s "id" = s -> HasPrefix s "id" = false.
Proof.
  intros Hfix. pose proof (TrimLeftFunc_head (fun c => inCutset c "id") s) as Hh.
  unfold TrimLeft in Hfix. rewrite Hfix in Hh.
  destruct s as [|c s]; [reflexivity |].
  change (HasPrefix (String c s) "id")
    with (Ascii.eqb "i" c && HasPrefix s "d").
  change (inCutset c "id")
    with (Ascii.eqb c "i" || (Ascii.eqb c "d" || false)) in Hh.
  apply orb_false_elim in Hh as [Hi _].
  rewrite Ascii.eqb_sym in Hi. now rewrite Hi.
Qed.

(** Stripping a raw identifier ["id" ++ code] whose code starts neither
    with [i] nor with [d] yields the code. *)
Lemma TrimLeft_id_code (code : string) :
  TrimLeft code "id" = code -> TrimLeft ("id" +:+ code) "id" = code.
Proof. intros Hfix. unfold TrimLeft in *. exact Hfix. Qed.

(** On a raw identifier ["id"] followed by a numeric code, the load keeps
    the code. *)
Lemma TrimLeft_id_numeric (code : string) :
  numeric code = true -> TrimLeft ("id" +:+ code) "id" = code.
Proof.
  intros Hnum. apply TrimLeft_id_code. unfold TrimLeft.
  apply TrimLeftFunc_fixed. destruct code as [|c r]; [exact I |].
  simpl in Hnum. apply andb_prop in Hnum as [Hc _].
  change (inCutset c "id")
    with (Ascii.eqb c "i" || (Ascii.eqb c "d" || false)).
  destruct (Ascii.eqb_spec c "i") as [-> | _]; [discriminate Hc |].
  destruct (Ascii.eqb_spec c "d") as [-> | _]; [discriminate Hc |].
  reflexivity.
Qed.

Lemma TrimLeftFunc_allSpace (r : string) :
  allSpace r = true -> TrimLeftFunc isSpace r = "".
Proof.
  induction r as [|c r IH]; simpl; [reflexivity |].
  intros [Hc Hr]%andb_prop. rewrite Hc. auto.
Qed.

Lemma TrimRightFunc_allSpace (r : string) :
  allSpace r = true -> TrimRightFunc isSpace r = "".
Proof.
  induction r as [|c r IH]; simpl; [reflexivity |].
  intros [Hc Hr]%andb_prop. rewrite (IH Hr), Hc. reflexivity.
Qed.

Lemma TrimRightFunc_pad (s r : string) :
  allSpace r = true ->
  TrimRightFunc isSpace (s +:+ r) = TrimRightFunc isSpace s.
Proof.
  intros Hr. induction s as [|c s IH].
  - now apply TrimRightFunc_allSpace.
  - rewrite append_cons. simpl. now rewrite IH.
Qed.

Lemma TrimLeftFunc_pad (l s : string) :
  allSpace l = true ->
  TrimLeftFunc isSpace (l +:+ s) = TrimLeftFunc isSpace s.
Proof.
  induction l as [|c l IH]; [reflexivity |].
  intros [Hc Hl]%andb_prop. rewrite append_cons. simpl. rewrite Hc. auto.
Qed.

Lemma TrimSpace_pad_r (s r : string) :
  allSpace r = true -> TrimSpace (s +:+ r) = TrimSpace s.
Proof.
  intros Hr. unfold TrimSpace. induction s as [|c s IH].
  - rewrite append_nil_l. now rewrite TrimLeftFunc_allSpace.
  - rewrite append_cons. simpl. destruct (isSpace c); [exact IH |].
    rewrite <- append_cons. now apply TrimRightFunc_pad.
Qed.

(** [TrimSpace] does not see white space added around its argument. *)
Lemma TrimSpace_pad (l s r : string) :
  allSpace l = true -> allSpace r = true ->
  TrimSpace (l +:+ s +:+ r) = TrimSpace s.
Proof.
  intros Hl Hr. unfold TrimSpace. rewrite TrimLeftFunc_pad by exact Hl.
  now apply TrimSpace_pad_r.
Qed.


End StringFacts.

(** ** The municipality directory *)

(** Unfolds the monad so that a directory operation becomes a function of
    the state. *)
Ltac run_m :=
  unfold bind, ret, get, modify, record_io, set_municipalities,
    set_initialized in *; simpl in *.

Section DirectoryFacts.
Context `{Embedded}.

(** The load does nothing once [initialized] is set. *)
Lemma init_warm (g : Globals) :
  initialized g = true -> initializeMunicipalities g = (None, g).
Proof. intros Hi. unfold initializeMunicipalities. run_m. now rewrite Hi. Qed.

(** The first load, step by step. *)
Lemma init_cold (g : Globals) :
  initialized g = false ->
  initializeMunicipalities g =
    let read := IOReadFile "data/municipalities.json" in
    match ReadFile "data/municipalities.json" with
    | Err err =>
        (Some (ErrWrap "error reading municipalities data: " err),
         {| municipalities := municipalities g; initialized := false;
            io_log := io_log g ++ [read] |})
    | Ok data =>
        let log := (io_log g ++ [read]) ++ [IOUnmarshal data] in
        match Unmarshal data (municipalities g) with
        | (ms, Some err) =>
            (Some (ErrWrap "error parsing municipalities data: " err),
             {| municipalities := ms; initialized := false; io_log := log |})
        | (ms, None) =>
            (None,
             {| municipalities :=
                  map (fun m => setID m (TrimLeft (ID m) "id")) ms;
                initialized := true; io_log := log |})
        end
    end.
Proof.
  intros Hi. unfold initializeMunicipalities. run_m. rewrite Hi.
  destruct (ReadFile _) as [data | err]; simpl; rewrite ?Hi;
    [| reflexivity].
  destruct (Unmarshal data (municipalities g)) as [ms [err |]]; simpl;
    rewrite ?Hi; reflexivity.
Qed.

(** What a successful first load stores: the parsed records, each with the
    leading [i] and [d] bytes of its identifier removed. *)
Lemma load_stores_trimmed (g : Globals) (data : string)
    (ms : list MunicipalityInfo) :
  initialized g = false ->
  ReadFile "data/municipalities.json" = Ok data ->
  Unmarshal data (municipalities g) = (ms, None) ->
  municipalities (snd (initializeMunicipalities g))
  = map (fun m => setID m (TrimLeft (ID m) "id")) ms.
Proof.
  intros Hi Hread Hparse. rewrite init_cold by exact Hi.
  simpl. now rewrite Hread, Hparse.
Qed.

Lemma init_ok_initialized (g g' : Globals) :
  initializeMunicipalities g = (None, g') -> initialized g' = true.
Proof.
  destruct (initialized g) eqn:Hi.
  - rewrite init_warm by exact Hi. now intros [= <-].
  - rewrite init_cold by exact Hi. simpl.
    destruct (ReadFile _) as [data | err]; [| discriminate].
    destruct (Unmarshal data (municipalities g)) as [ms [err |]];
      [discriminate |].
    now intros [= <-].
Qed.

Lemma init_preserves_stripped (g : Globals) :
  ids_stripped g -> ids_stripped (snd (initializeMunicipalities g)).
Proof.
  intros Hg. destruct (initialized g) eqn:Hi.
  - now rewrite init_warm by exact Hi.
  - rewrite init_cold by exact Hi. simpl.
    destruct (ReadFile _) as [data | err]; [| intros [=]].
    destruct (Unmarshal data (municipalities g)) as [ms [err |]];
      [intros [=] |].
    intros _. simpl. apply Forall_map, Forall_forall. intros m _. simpl.
    apply TrimLeftFunc_idem.
Qed.

(** A lookup changes the state only through the load it starts with. *)
Lemma FindMunicipalityID_state (name : string) (g : Globals) :
  snd (FindMunicipalityID name g) = snd (initializeMunicipalities g).
Proof.
  unfold FindMunicipalityID, bind at 1.
  destruct (initializeMunicipalities g) as [[err |] g']; run_m;
    [reflexivity |].
  now destruct (scanExactName _ _).
Qed.

Lemma FindMunicipalitiesByPartialName_state (s : string) (g : Globals) :
  snd (FindMunicipalitiesByPartialName s g)
  = snd (initializeMunicipalities g).
Proof.
  unfold FindMunicipalitiesByPartialName, bind at 1.
  now destruct (initializeMunicipalities g) as [[err |] g'].
Qed.

Lemma GetAllMunicipalities_state (g : Globals) :
  snd (GetAllMunicipalities g) = snd (initializeMunicipalities g).
Proof.
  unfold GetAllMunicipalities, bind at 1.
  now destruct (initializeMunicipalities g) as [[err |] g'].
Qed.

Lemma GetMunicipalityByID_state (id : string) (g : Globals) :
  snd (GetMunicipalityByID id g) = snd (initializeMunicipalities g).
Proof.
  unfold GetMunicipalityByID, bind at 1.
  destruct (initializeMunicipalities g) as [[err |] g']; run_m;
    [reflexivity |].
  now destruct (scanID _ _).
Qed.

Lemma run_call_state (c : call) (g : Globals) :
  snd (run_call c g) = snd (initializeMunicipalities g).
Proof.
  destruct c; unfold run_call, bind at 1.
  - now destruct (initializeMunicipalities g).
  - rewrite <- (FindMunicipalityID_state name).
    now destruct (FindMunicipalityID name g).
  - rewrite <- (FindMunicipalitiesByPartialName_state partialName).
    now destruct (FindMunicipalitiesByPartialName partialName g).
  - rewrite <- GetAllMunicipalities_state.
    now destruct (GetAllMunicipalities g).
  - rewrite <- (GetMunicipalityByID_state id).
    now destruct (GetMunicipalityByID id g).
Qed.

(** No call changes a loaded directory. *)
Lemma run_calls_warm (cs : list call) (g : Globals) :
  initialized g = true -> run_calls cs g = (tt, g).
Proof.
  intros Hi. induction cs as [|c cs IH]; [reflexivity |].
  simpl. unfold bind at 1.
  pose proof (run_call_state c g) as Hc. rewrite init_warm in Hc by exact Hi.
  destruct (run_call c g) as [[] g1]. simpl in Hc. subst g1. exact IH.
Qed.

Lemma reachable_stripped (g : Globals) : reachable g -> ids_stripped g.
Proof.
  induction 1 as [| g c _ IH]; [intros [=] |].
  rewrite run_call_state. now apply init_preserves_stripped.
Qed.




Lemma HasPrefix_split (s p : string) :
  HasPrefix s p = true -> s = p +:+ sliceFrom (String.length p) s.
Proof.
  revert s. induction p as [|a p IH]; intros s; [reflexivity |].
  destruct s as [|b s]; simpl; [discriminate |].
  intros [Hab Hp]%andb_prop. apply Ascii.eqb_eq in Hab as ->.
  rewrite append_cons. f_equal. now apply IH.
Qed.

Lemma HasPrefix_append (p x : string) : HasPrefix (p +:+ x) p = true.
Proof.
  induction p as [|a p IH]; [reflexivity |].
  rewrite append_cons. simpl. now rewrite Ascii.eqb_refl.
Qed.

(** The identifier that [GetMunicipalityByID] searches for always carries
    the prefix. *)
Lemma searchID_prefixed (id : string) :
  exists x,
    (if negb (HasPrefix id "id") then "id" +:+ id else id) = "id" +:+ x.
Proof.
  destruct (HasPrefix id "id") eqn:Hp; simpl.
  - exists (sliceFrom 2 id). now apply (HasPrefix_split id "id").
  - now exists id.
Qed.

Lemma scanID_stripped (x : string) (ms : list MunicipalityInfo) :
  Forall (fun m => TrimLeft (ID m) "id" = ID m) ms ->
  scanID ("id" +:+ x) ms = None.
Proof.
  induction 1 as [| m ms Hm _ IH]; simpl; [reflexivity |].
  now rewrite (TrimLeft_id_fixed_neq _ x Hm).
Qed.

(** After a successful load, [GetMunicipalityByID] finds nothing, whatever
    the dataset and the query. *)
Lemma GetMunicipalityByID_finds_nothing (g g' : Globals) (id : string) :
  reachable g ->
  initializeMunicipalities g = (None, g') ->
  GetMunicipalityByID id g
  = (Err (ErrNew ("municipality ID not found: " +:+ id)), g').
Proof.
  intros Hr Hinit. unfold GetMunicipalityByID, bind at 1. rewrite Hinit.
  unfold bind, get, ret. cbv beta iota zeta.
  destruct (searchID_prefixed id) as [x ->].
  rewrite scanID_stripped; [reflexivity |].
  pose proof (init_preserves_stripped g (reachable_stripped g Hr)) as Hs.
  rewrite Hinit in Hs. apply Hs. now apply init_ok_initialized with g.
Qed.

End DirectoryFacts.

Section DirectoryClaims.
Context `{Embedded}.


Lemma load_error_propagated (g g' : Globals) (e : error) :
  initializeMunicipalities g = (Some e, g') -> propagated g e.
Proof.
  intros Hinit. unfold propagated, FindMunicipalityID,
    FindMunicipalitiesByPartialName, GetAllMunicipalities,
    GetMunicipalityByID, bind.
  rewrite Hinit. repeat split; reflexivity.
Qed.

(** C9. Once [initializeMunicipalities] has succeeded, calling it again
    returns success in the same state, and no sequence of directory calls
    changes the state: the records stay as they are and nothing is read or
    parsed again. When the embedded file cannot be read, or cannot be
    parsed, at the first load, each of the four public lookups returns
    the load error. *)
Theorem C9_load_once_and_errors_propagate :
  (forall g g' : Globals,
      initializeMunicipalities g = (None, g') ->
      initializeMunicipalities g' = (None, g') /\
      forall cs, run_calls cs g' = (tt, g')) /\
  (forall (g : Globals) (e0 : error),
      initialized g = false ->
      ReadFile "data/municipalities.json" = Err e0 ->
      propagated g (ErrWrap "error reading municipalities data: " e0)) /\
  (forall (g : Globals) (data : string) (e0 : error),
      initialized g = false ->
      ReadFile "data/municipalities.json" = Ok data ->
      snd (Unmarshal data (municipalities g)) = Some e0 ->
      propagated g (ErrWrap "error parsing municipalities data: " e0)).
Proof.
  split; [| split].
  - intros g g' Hinit. pose proof (init_ok_initialized g g' Hinit) as Hi.
    split; [now apply init_warm | intros cs; now apply run_calls_warm].
  - intros g e0 Hi Hread.
    pose proof (init_cold g Hi) as Hc. rewrite Hread in Hc.
    exact (load_error_propagated _ _ _ Hc).
  - intros g data e0 Hi Hread Hparse.
    pose proof (init_cold g Hi) as Hc. rewrite Hread in Hc. simpl in Hc.
    destruct (Unmarshal data (municipalities g)) as [ms perr].
    simpl in Hparse. subst perr.
    exact (load_error_propagated _ _ _ Hc).
Qed.






End DirectoryClaims.

(** ** The directory on the small dataset *)
Section DirectoryExamples.

Example loaded_sample_value :
  loaded_sample
  = {| municipalities :=
         [ record "08019" "Barcelona"; record "28079" "Madrid";
           record "15030" "A Coruna"; record "28080" "MADRID" ];
       initialized := true;
       io_log := [ IOReadFile "data/municipalities.json";
                   IOUnmarshal sample_json ] |}.
Proof. reflexivity. Qed.

(** C1. On a dataset whose first record has the raw identifier
    ["id08019"], the load stores ["08019"], and [GetMunicipalityByID]
    called with ["08019"] answers "municipality ID not found". *)
Theorem C1_by_id_bare_code_not_found :
  ID <$> municipalities loaded_sample !! 0%nat = Some "08019" /\
  @GetMunicipalityByID sampleEmbedded "08019" start
  = (Err (ErrNew "municipality ID not found: 08019"), loaded_sample) /\
  @GetMunicipalityByID sampleEmbedded "08019" loaded_sample
  = (Err (ErrNew "municipality ID not found: 08019"), loaded_sample) /\
  @GetMunicipalityByID sampleEmbedded "id08019" loaded_sample
  = (Err (ErrNew "municipality ID not found: id08019"), loaded_sample).
Proof. repeat split. Qed.





Lemma C9_load_once_and_errors_propagate_witness :
  (@initializeMunicipalities sampleEmbedded loaded_sample
   = (None, loaded_sample) /\
   @run_calls sampleEmbedded
     [CallGetAllMunicipalities; CallInitialize;
      CallFindMunicipalityID "Madrid"] loaded_sample
   = (tt, loaded_sample)) /\
  @propagated missingEmbedded start
    (ErrWrap "error reading municipalities data: "
       (ErrNew "open data/municipalities.json: file does not exist")) /\
  @propagated malformedEmbedded start
    (ErrWrap "error parsing municipalities data: "
       (ErrNew "unexpected end of JSON input")).
Proof.
  split; [| split].
  - destruct (proj1 (@C9_load_once_and_errors_propagate sampleEmbedded)
                start loaded_sample eq_refl) as [Hagain Hcalls].
    split; [exact Hagain | apply Hcalls].
  - exact (proj1 (proj2 (@C9_load_once_and_errors_propagate missingEmbedded))
             start _ eq_refl eq_refl).
  - exact (proj2 (proj2 (@C9_load_once_and_errors_propagate malformedEmbedded))
             start "{" _ eq_refl eq_refl eq_refl).
Defined.


End DirectoryExamples.

(** ** The two-step fetch and its retry loop *)
Section ClientFacts.
Context {W : Type} `{Remote W} `{Decoder (gmap string any)}.
Context {T : Type} `{Decoder T}.

(** [getRedir] when the first request fails. *)
Lemma getRedir_first_request_fails (c : Client) (path : string) (t : T)
    (p : Process W) (err : error) (w1 : W) :
  httpGet (firstURL c path) (world p) = (Err err, w1) ->
  getRedir c path t p
  = ((t, Some (ErrWrap "error requesting data: " err)),
     requested (firstURL c path) w1 p).
Proof.
  intros Hg1. unfold getRedir, bind, Get. fold (firstURL c path).
  now rewrite Hg1.
Qed.

(** [getRedir] when the first body does not decode. *)
Lemma getRedir_first_decode_fails (c : Client) (path : string) (t : T)
    (p : Process W) (body : string) (w1 : W) (data : gmap string any)
    (err : error) :
  httpGet (firstURL c path) (world p) = (Ok body, w1) ->
  Decode body (∅ : gmap string any) = (data, Some err) ->
  getRedir c path t p
  = ((t, Some (ErrWrap "error decoding data: " err)),
     requested (firstURL c path) w1 p).
Proof.
  intros Hg1 Hd. unfold getRedir, bind, Get. fold (firstURL c path).
  rewrite Hg1, Hd. reflexivity.
Qed.

(** [getRedir] when the first body decodes: the second request is made,
    whatever the decoded object holds, and decides the result. *)
Lemma getRedir_second_hop (c : Client) (path : string) (t : T)
    (p : Process W) (body : string) (w1 w2 : W) (data : gmap string any)
    (r2 : result string) :
  httpGet (firstURL c path) (world p) = (Ok body, w1) ->
  Decode body (∅ : gmap string any) = (data, None) ->
  httpGet (secondURL c data) w1 = (r2, w2) ->
  getRedir c path t p
  = (match r2 with
     | Err err => (t, Some (ErrWrap "error requesting data: " err))
     | Ok body2 =>
         match Decode body2 t with
         | (t', Some err) => (t', Some (ErrWrap "error decoding data: " err))
         | (t', None) => (t', None)
         end
     end,
     {| world := w2;
        trace := trace p ++ [EvGet (firstURL c path);
                             EvGet (secondURL c data)] |}).
Proof.
  intros Hg1 Hd Hg2. unfold getRedir, bind, Get. fold (firstURL c path).
  rewrite Hg1, Hd. fold (secondURL c data). simpl. rewrite Hg2.
  rewrite <- app_assoc. simpl.
  destruct r2 as [body2 | err]; [| reflexivity].
  now destruct (Decode body2 t) as [t' [err |]].
Qed.

(** [getRedir] only adds requests to the trace. *)
Lemma getRedir_trace (c : Client) (path : string) (t : T) (p : Process W) :
  exists urls,
    trace (snd (getRedir c path t p)) = trace p ++ map EvGet urls.
Proof.
  destruct (httpGet (firstURL c path) (world p)) as [[body | err] w1] eqn:Hg1.
  - destruct (Decode body (∅ : gmap string any)) as [data [err |]] eqn:Hd.
    + rewrite (getRedir_first_decode_fails _ _ _ _ _ _ _ _ Hg1 Hd).
      now exists [firstURL c path].
    + destruct (httpGet (secondURL c data) w1) as [r2 w2] eqn:Hg2.
      rewrite (getRedir_second_hop _ _ _ _ _ _ _ _ _ Hg1 Hd Hg2).
      now exists [firstURL c path; secondURL c data].
  - rewrite (getRedir_first_request_fails _ _ _ _ _ _ Hg1).
    now exists [firstURL c path].
Qed.

Lemma sleeps_app (a b : list event) : sleeps (a ++ b) = sleeps a ++ sleeps b.
Proof. apply omap_app. Qed.

Lemma sleeps_gets (urls : list string) : sleeps (map EvGet urls) = [].
Proof. induction urls as [|u urls IH]; [reflexivity | exact IH]. Qed.

Lemma getRedir_sleeps (c : Client) (path : string) (t : T) (p : Process W) :
  sleeps (trace (snd (getRedir c path t p))) = sleeps (trace p).
Proof.
  destruct (getRedir_trace c path t p) as [urls ->].
  now rewrite sleeps_app, sleeps_gets, app_nil_r.
Qed.

(** One iteration of the retry loop whose attempt fails. *)
Lemma retryLoop_first_fails (c : Client) (path : string) (n : nat) (t t' : T)
    (lastErr : option error) (p p' : Process W) (e : error) :
  getRedir c path t p = ((t', Some e), p') ->
  retryLoop c path (S n) 0 t lastErr p
  = retryLoop c path n 1 t' (Some e) (failed 1 e p').
Proof.
  intros Hg. simpl. unfold bind at 1. unfold ret at 1. unfold bind at 1.
  rewrite Hg. reflexivity.
Qed.

Lemma retryLoop_retry_fails (c : Client) (path : string) (n : nat)
    (attempt : Z) (t t' : T) (lastErr : option error) (p p' : Process W)
    (e : error) :
  (0 < attempt)%Z ->
  getRedir c path t
    (retrying (attempt + 1) (baseBackoffMs * 2 ^ (attempt - 1)) p)
  = ((t', Some e), p') ->
  retryLoop c path (S n) attempt t lastErr p
  = retryLoop c path n (attempt + 1) t' (Some e)
      (failed (attempt + 1) e p').
Proof.
  intros Hpos Hg. cbn [retryLoop].
  replace (attempt >? 0)%Z with true by (symmetry; lia).
  unfold bind at 1. unfold bind at 1. unfold Printf at 1, Sleep at 1, modify.
  unfold bind at 1.
  cbn [world trace]. rewrite <- app_assoc. cbn [app].
  match goal with
  | |- (let (_, _) := getRedir c path t ?q in _) = _ =>
      change q
        with (retrying (attempt + 1) (baseBackoffMs * 2 ^ (attempt - 1)) p)
  end.
  rewrite Hg. reflexivity.
Qed.

End ClientFacts.

Section ClientClaims.
Context {W : Type} `{Remote W} `{Decoder (gmap string any)}.
Context {T : Type} `{Decoder T}.

(** C3. When every invocation of [getRedir] fails, [getRedirWithRetry]
    invokes it exactly four times: at once, then after logging the failure
    and sleeping 100ms, 200ms and 400ms, that is [baseBackoffMs * 2^(k-1)]
    milliseconds before retry [k]; the errors may be of any kind; the result
    is the error "request failed after 4 attempts: " wrapping the error of
    the fourth invocation. *)
Theorem C3_four_attempts_with_backoff (c : Client) (path : string) (t : T)
    (p : Process W) :
  (forall t' p', exists e, snd (fst (getRedir c path t' p')) = Some e) ->
  exists (e1 e2 e3 e4 : error) (t1 t2 t3 t4 : T) (p1 p2 p3 p4 : Process W),
    getRedir c path t p = ((t1, Some e1), p1) /\
    getRedir c path t1 (retrying 2 100 (failed 1 e1 p1))
    = ((t2, Some e2), p2) /\
    getRedir c path t2 (retrying 3 200 (failed 2 e2 p2))
    = ((t3, Some e3), p3) /\
    getRedir c path t3 (retrying 4 400 (failed 3 e3 p3))
    = ((t4, Some e4), p4) /\
    getRedirWithRetry c path t p
    = ((t4, Some (ErrWrap "request failed after 4 attempts: " e4)),
       failed 4 e4 p4) /\
    sleeps (trace (failed 4 e4 p4))
    = sleeps (trace p) ++
      map (fun k => baseBackoffMs * 2 ^ (k - 1) * Millisecond)%Z
        [1; 2; 3]%Z.
Proof.
  intros Hfail.
  destruct (Hfail t p) as [e1 He1].
  destruct (getRedir c path t p) as [[t1 o1] p1] eqn:E1.
  simpl in He1. subst o1.
  destruct (Hfail t1 (retrying 2 100 (failed 1 e1 p1))) as [e2 He2].
  destruct (getRedir c path t1 _) as [[t2 o2] p2] eqn:E2.
  simpl in He2. subst o2.
  destruct (Hfail t2 (retrying 3 200 (failed 2 e2 p2))) as [e3 He3].
  destruct (getRedir c path t2 _) as [[t3 o3] p3] eqn:E3.
  simpl in He3. subst o3.
  destruct (Hfail t3 (retrying 4 400 (failed 3 e3 p3))) as [e4 He4].
  destruct (getRedir c path t3 _) as [[t4 o4] p4] eqn:E4.
  simpl in He4. subst o4.
  exists e1, e2, e3, e4, t1, t2, t3, t4, p1, p2, p3, p4.
  repeat (split; [first [reflexivity | assumption] |]). split.
  - unfold getRedirWithRetry.
    change (Z.to_nat (maxRetries + 1)) with 4%nat.
    rewrite (retryLoop_first_fails c path 3 t t1 None p p1 e1 E1).
    rewrite (retryLoop_retry_fails c path 2 1 t1 t2 _ _ p2 e2 eq_refl E2).
    rewrite (retryLoop_retry_fails c path 1 2 t2 t3 _ _ p3 e3 eq_refl E3).
    rewrite (retryLoop_retry_fails c path 0 3 t3 t4 _ _ p4 e4 eq_refl E4).
    reflexivity.
  - pose proof (getRedir_sleeps c path t p) as S1. rewrite E1 in S1.
    pose proof (getRedir_sleeps c path t1
                  (retrying 2 100 (failed 1 e1 p1))) as S2.
    rewrite E2 in S2.
    pose proof (getRedir_sleeps c path t2
                  (retrying 3 200 (failed 2 e2 p2))) as S3.
    rewrite E3 in S3.
    pose proof (getRedir_sleeps c path t3
                  (retrying 4 400 (failed 3 e3 p3))) as S4.
    rewrite E4 in S4.
    cbn [snd failed retrying trace] in *.
    rewrite !sleeps_app in *. cbn [sleeps omap] in *.
    rewrite S4, S3, S2, S1. simpl. rewrite ?app_nil_r, <- ?app_assoc.
    reflexivity.
Qed.


End ClientClaims.

Section ForecastClaims.
Context {W : Type} `{Remote W} `{Decoder (gmap string any)}.
Context `{Decoder (list (option Municipality.t))}.

(** C6. When the retried fetch succeeds with the decoded sequence [m],
    [GetForecastFor] fails with the [NoData] error "no data found for
    municipality <id>" if [m] is empty, and returns the first element of [m]
    otherwise. *)
Theorem C6_empty_forecast_is_no_data (c : Client) (muni : string)
    (p p' : Process W) (m : list (option Municipality.t)) :
  getRedirWithRetry c
    ("api/prediccion/especifica/municipio/diaria/" +:+ muni) [] p
  = ((m, None), p') ->
  GetForecastFor c muni p
  = (match m with
     | [] => Err (ErrNew ("no data found for municipality " +:+ muni))
     | m0 :: _ => Ok m0
     end, p') /\
  (m = [] ->
   exists e, fst (GetForecastFor c muni p) = Err e /\ isNoData e = true).
Proof.
  intros Hfetch.
  assert (Hcode : GetForecastFor c muni p
    = (match m with
       | [] => Err (ErrNew ("no data found for municipality " +:+ muni))
       | m0 :: _ => Ok m0
       end, p')).
  { unfold GetForecastFor, bind. rewrite Hfetch. now destruct m. }
  split; [exact Hcode |].
  intros ->. rewrite Hcode. eexists. split; [reflexivity |].
  unfold isNoData. apply HasPrefix_append.
Qed.

End ForecastClaims.

(** ** The fetcher in the small worlds *)
Section ClientExamples.



Lemma unreachable_always_fails (path : string) (t : gmap string any)
    (p : Process nat) :
  exists e, snd (fst (getRedir_in unreachableRemote path t p)) = Some e.
Proof. eexists. reflexivity. Defined.

Lemma C3_four_attempts_with_backoff_witness :
  (forall t p, exists e,
      snd (fst (getRedir_in unreachableRemote "api/x" t p)) = Some e) /\
  exists e1 e2 e3 e4 t1 t2 t3 t4 p1 p2 p3 p4,
    getRedir_in unreachableRemote "api/x" ∅ idle = ((t1, Some e1), p1) /\
    getRedir_in unreachableRemote "api/x" t1
      (@retrying nat unreachableRemote 2 100 (failed 1 e1 p1)) = ((t2, Some e2), p2) /\
    getRedir_in unreachableRemote "api/x" t2
      (@retrying nat unreachableRemote 3 200 (failed 2 e2 p2)) = ((t3, Some e3), p3) /\
    getRedir_in unreachableRemote "api/x" t3
      (@retrying nat unreachableRemote 4 400 (failed 3 e3 p3)) = ((t4, Some e4), p4) /\
    getRedirWithRetry_in unreachableRemote "api/x" ∅ idle
    = ((t4, Some (ErrWrap "request failed after 4 attempts: " e4)),
       failed 4 e4 p4) /\
    sleeps (trace (failed 4 e4 p4))
    = sleeps (trace idle) ++
      map (fun k => baseBackoffMs * 2 ^ (k - 1) * Millisecond)%Z [1; 2; 3]%Z.
Proof.
  split; [exact (unreachable_always_fails "api/x") |].
  exact (@C3_four_attempts_with_backoff nat unreachableRemote
           sampleObjectDecoder (gmap string any) sampleObjectDecoder
           sampleClient "api/x" ∅ idle (unreachable_always_fails "api/x")).
Defined.

(** The run of C3 in the world where every request fails, event by
    event. *)
Example retry_trace_when_unreachable :
  let r := getRedirWithRetry_in unreachableRemote "api/x" ∅ idle in
  Error <$> snd (fst r)
  = Some
      "request failed after 4 attempts: error requesting data: dial tcp: connection refused"
  /\
  snd (fst r) ≫= Unwrap
  = Some (ErrWrap "error requesting data: "
            (ErrNew "dial tcp: connection refused")) /\
  trace (snd r)
  = [ EvGet "https://opendata.aemet.es/opendata/api/x?api_key=KEY";
      EvLog "Request failed (attempt 1/4): error requesting data: dial tcp: connection refused";
      EvLog "Retrying request (attempt 2/4) after 100ms backoff";
      EvSleep 100000000;
      EvGet "https://opendata.aemet.es/opendata/api/x?api_key=KEY";
      EvLog "Request failed (attempt 2/4): error requesting data: dial tcp: connection refused";
      EvLog "Retrying request (attempt 3/4) after 200ms backoff";
      EvSleep 200000000;
      EvGet "https://opendata.aemet.es/opendata/api/x?api_key=KEY";
      EvLog "Request failed (attempt 3/4): error requesting data: dial tcp: connection refused";
      EvLog "Retrying request (attempt 4/4) after 400ms backoff";
      EvSleep 400000000;
      EvGet "https://opendata.aemet.es/opendata/api/x?api_key=KEY";
      EvLog "Request failed (attempt 4/4): error requesting data: dial tcp: connection refused" ].
Proof. repeat split. Qed.

Lemma C6_empty_forecast_is_no_data_witness :
  @getRedirWithRetry nat (answering datosBody "[]") sampleObjectDecoder _
    sampleForecastDecoder sampleClient
    ("api/prediccion/especifica/municipio/diaria/" +:+ "28079") [] idle
  = (([], None),
     {| world := 2%nat;
        trace := [ EvGet (firstURL sampleClient
                     "api/prediccion/especifica/municipio/diaria/28079");
                   EvGet "https://x/y?api_key=KEY" ] |}) /\
  GetForecastFor_in (answering datosBody "[]") "28079" idle
  = (Err (ErrNew "no data found for municipality 28079"),
     {| world := 2%nat;
        trace := [ EvGet (firstURL sampleClient
                     "api/prediccion/especifica/municipio/diaria/28079");
                   EvGet "https://x/y?api_key=KEY" ] |}).
Proof.
  split; [reflexivity |].
  exact (proj1 (@C6_empty_forecast_is_no_data nat (answering datosBody "[]")
                  sampleObjectDecoder sampleForecastDecoder sampleClient
                  "28079" idle _ [] eq_refl)).
Defined.

(** A sequence that holds one nil pointer is not empty: its first element,
    nil, is returned without error. *)
Example forecast_of_null_element :
  fst (GetForecastFor_in (answering datosBody "[null]") "28079" idle)
  = Ok None.
Proof. reflexivity. Qed.

End ClientExamples.

(** ** The one-line summary *)
Section SummaryFacts.

Lemma last_cons_default {A} (a d : A) (l : list A) :
  List.last (a :: l) d = List.last l a.
Proof.
  revert a d. induction l as [|b l IH]; intros a d; [reflexivity |].
  change (List.last (a :: b :: l) d) with (List.last (b :: l) d).
  now rewrite !IH.
Qed.

(** Reading a key after an [upsert]. *)
Lemma periodAt_upsert (k key : string) (assign : PeriodData -> PeriodData)
    (x : Extracted) :
  periodAt (periodData (upsert key assign x)) k
  = if String.eqb key k then assign (periodAt (periodData x) k)
    else periodAt (periodData x) k.
Proof.
  unfold upsert, periodAt. cbn [periodData].
  destruct (String.eqb_spec key k) as [-> | Hne].
  - destruct (periodData x !! k) as [pd |] eqn:Hk;
      now rewrite lookup_insert_eq.
  - destruct (periodData x !! key) as [pd |];
      now rewrite lookup_insert_ne.
Qed.

Lemma periodData_markPeriod (periodo : string) (x : Extracted) :
  periodData (markPeriod periodo x) = periodData x.
Proof.
  unfold markPeriod.
  destruct (String.eqb periodo "00-12"); [reflexivity |].
  destruct (String.eqb periodo "12-24"); [reflexivity |].
  now destruct (String.eqb periodo "00-24").
Qed.

(** One loop body, seen at a period key that is neither empty nor
    ["default"]. *)
Lemma periodAt_loopBody (k periodo : string)
    (assign : PeriodData -> PeriodData) (x : Extracted) :
  k <> "" -> k <> "default" ->
  periodAt (periodData (loopBody periodo assign x)) k
  = if String.eqb periodo k then assign (periodAt (periodData x) k)
    else periodAt (periodData x) k.
Proof.
  intros Hk Hd. unfold loopBody.
  destruct (String.eqb_spec periodo "") as [-> | Hp].
  - cbn [periodData]. rewrite periodAt_upsert.
    destruct (String.eqb_spec "default" k) as [E | _]; [now subst |].
    destruct (String.eqb_spec "" k) as [E | _]; [now subst | reflexivity].
  - now rewrite periodData_markPeriod, periodAt_upsert.
Qed.

Lemma hasMorningData_loopBody (periodo : string)
    (assign : PeriodData -> PeriodData) (x : Extracted) :
  hasMorningData (loopBody periodo assign x)
  = hasMorningData x || String.eqb periodo "00-12".
Proof.
  unfold loopBody, markPeriod.
  destruct (String.eqb_spec periodo "") as [-> | Hp].
  - cbn. now rewrite orb_false_r.
  - destruct (String.eqb periodo "00-12"); cbn;
      [now rewrite orb_true_r | rewrite orb_false_r].
    destruct (String.eqb periodo "12-24"); [reflexivity |].
    now destruct (String.eqb periodo "00-24").
Qed.

Lemma hasAfternoonData_loopBody (periodo : string)
    (assign : PeriodData -> PeriodData) (x : Extracted) :
  hasAfternoonData (loopBody periodo assign x)
  = hasAfternoonData x || String.eqb periodo "12-24".
Proof.
  unfold loopBody, markPeriod.
  destruct (String.eqb_spec periodo "") as [-> | Hp].
  - cbn. now rewrite orb_false_r.
  - destruct (String.eqb_spec periodo "00-12") as [-> | H1]; cbn;
      [now rewrite orb_false_r |].
    destruct (String.eqb periodo "12-24"); cbn;
      [now rewrite orb_true_r | rewrite orb_false_r].
    now destruct (String.eqb periodo "00-24").
Qed.

(** A whole loop over the entries [l] of one array. *)
Section OneLoop.
Context {E : Type} (per : E -> string) (asg : E -> PeriodData -> PeriodData).

Lemma periodAt_loop (k : string) (l : list E) (x : Extracted) :
  k <> "" -> k <> "default" ->
  periodAt (periodData (loop per asg l x)) k
  = fold_left (fun pd e => asg e pd)
      (List.filter (fun e => String.eqb (per e) k) l)
      (periodAt (periodData x) k).
Proof.
  intros Hk Hd. unfold loop. revert x.
  induction l as [|e l IH]; intros x; [reflexivity |].
  cbn [fold_left List.filter]. rewrite IH, periodAt_loopBody by assumption.
  now destruct (String.eqb (per e) k).
Qed.

Lemma hasMorningData_loop (l : list E) (x : Extracted) :
  hasMorningData (loop per asg l x)
  = hasMorningData x || existsb (fun e => String.eqb (per e) "00-12") l.
Proof.
  unfold loop. revert x.
  induction l as [|e l IH]; intros x; cbn [fold_left existsb].
  - now rewrite orb_false_r.
  - now rewrite IH, hasMorningData_loopBody, orb_assoc.
Qed.

Lemma hasAfternoonData_loop (l : list E) (x : Extracted) :
  hasAfternoonData (loop per asg l x)
  = hasAfternoonData x || existsb (fun e => String.eqb (per e) "12-24") l.
Proof.
  unfold loop. revert x.
  induction l as [|e l IH]; intros x; cbn [fold_left existsb].
  - now rewrite orb_false_r.
  - now rewrite IH, hasAfternoonData_loopBody, orb_assoc.
Qed.

End OneLoop.

(** A run of assignments leaves the value of the last one in the assigned
    fields and does not touch the others. *)
Lemma fold_withRainProb {E} (val : E -> Z) (l : list E) (pd : PeriodData) :
  fold_left (fun pd e => withRainProb (val e) pd) l pd
  = withRainProb (List.last (map val l) (RainProb pd)) pd.
Proof.
  revert pd. induction l as [|e l IH]; intros pd; [now destruct pd |].
  cbn [fold_left map]. rewrite IH, last_cons_default. reflexivity.
Qed.

Lemma fold_withSkyDesc {E} (val : E -> string) (l : list E)
    (pd : PeriodData) :
  fold_left (fun pd e => withSkyDesc (val e) pd) l pd
  = withSkyDesc (List.last (map val l) (SkyDesc pd)) pd.
Proof.
  revert pd. induction l as [|e l IH]; intros pd; [now destruct pd |].
  cbn [fold_left map]. rewrite IH, last_cons_default. reflexivity.
Qed.

Lemma fold_withWind {E} (dir : E -> string) (speed : E -> Z) (l : list E)
    (pd : PeriodData) :
  fold_left (fun pd e => withWind (dir e) (speed e) pd) l pd
  = let w := List.last (map (fun e => (dir e, speed e)) l)
               (WindDir pd, WindSpeed pd) in
    withWind (fst w) (snd w) pd.
Proof.
  revert pd. induction l as [|e l IH]; intros pd; [now destruct pd |].
  cbn [fold_left map]. rewrite IH, last_cons_default. reflexivity.
Qed.

(** What [extractPeriodData] holds for a period key [k]. *)
Lemma extractPeriodData_at (k : string) (day : Dia.t) :
  k <> "" -> k <> "default" ->
  periodAt (periodData (extractPeriodData day)) k
  = {| RainProb := rainOf k day; SkyDesc := skyOf k day;
       WindDir := fst (windOf k day); WindSpeed := snd (windOf k day) |}.
Proof.
  intros Hk Hd. unfold extractPeriodData. cbv zeta.
  change (fold_left
            (fun x wind =>
               loopBody (Viento.Periodo wind)
                 (withWind (Viento.Direccion wind) (Viento.Velocidad wind)) x))
    with (loop Viento.Periodo
            (fun e => withWind (Viento.Direccion e) (Viento.Velocidad e))).
  change (fold_left
            (fun x sky =>
               loopBody (EstadoCielo.Periodo sky)
                 (withSkyDesc (EstadoCielo.Descripcion sky)) x))
    with (loop EstadoCielo.Periodo
            (fun e => withSkyDesc (EstadoCielo.Descripcion e))).
  change (fold_left
            (fun x prob =>
               loopBody (ProbPrecipitacion.Periodo prob)
                 (withRainProb (ProbPrecipitacion.Value prob)) x))
    with (loop ProbPrecipitacion.Periodo
            (fun e => withRainProb (ProbPrecipitacion.Value e))).
  rewrite !periodAt_loop by assumption.
  rewrite fold_withWind, fold_withSkyDesc, fold_withRainProb.
  reflexivity.
Qed.

Lemma extractPeriodData_flags (day : Dia.t) :
  hasMorningData (extractPeriodData day) = hasPeriod "00-12" day /\
  hasAfternoonData (extractPeriodData day) = hasPeriod "12-24" day.
Proof.
  unfold extractPeriodData. cbv zeta.
  change (fold_left
            (fun x wind =>
               loopBody (Viento.Periodo wind)
                 (withWind (Viento.Direccion wind) (Viento.Velocidad wind)) x))
    with (loop Viento.Periodo
            (fun e => withWind (Viento.Direccion e) (Viento.Velocidad e))).
  change (fold_left
            (fun x sky =>
               loopBody (EstadoCielo.Periodo sky)
                 (withSkyDesc (EstadoCielo.Descripcion sky)) x))
    with (loop EstadoCielo.Periodo
            (fun e => withSkyDesc (EstadoCielo.Descripcion e))).
  change (fold_left
            (fun x prob =>
               loopBody (ProbPrecipitacion.Periodo prob)
                 (withRainProb (ProbPrecipitacion.Value prob)) x))
    with (loop ProbPrecipitacion.Periodo
            (fun e => withRainProb (ProbPrecipitacion.Value e))).
  rewrite !hasMorningData_loop, !hasAfternoonData_loop.
  split; reflexivity.
Qed.

End SummaryFacts.

Section SummaryClaims.

(** C4. When the first day of a forecast has data for both ["00-12"] and
    ["12-24"], the one-line summary shows the sky description and the rain
    probability of the period with the strictly higher rain probability (the
    afternoon on a tie), and the wind direction and speed of the period with
    the higher wind speed; the two periods are chosen separately. The rain
    probability shown is the higher of the two. *)
Theorem C4_half_day_summary (mun : Municipality.t) (today : Dia.t)
    (rest : list Dia.t) :
  Prediccion.Dia (Municipality.Prediccion mun) = today :: rest ->
  hasPeriod "00-12" today = true ->
  hasPeriod "12-24" today = true ->
  buildWeatherSummary mun
  = Ok (summaryText (Municipality.Nombre mun)
          (skyOf (rainierPeriod today) today)
          (Temperatura.Minima (Dia.Temperatura today))
          (Temperatura.Maxima (Dia.Temperatura today))
          (rainOf (rainierPeriod today) today)
          (fst (windOf (windierPeriod today) today))
          (snd (windOf (windierPeriod today) today))) /\
  rainOf (rainierPeriod today) today
  = Z.max (rainOf "00-12" today) (rainOf "12-24" today).
Proof.
  intros Hdia Hm Ha. split.
  - unfold buildWeatherSummary. rewrite Hdia. unfold chooseToday.
    destruct (extractPeriodData_flags today) as [-> ->]. rewrite Hm, Ha.
    cbn [andb]. cbv zeta.
    rewrite !extractPeriodData_at by discriminate.
    cbn [RainProb SkyDesc WindDir WindSpeed].
    unfold rainierPeriod, windierPeriod.
    destruct (rainOf "00-12" today >? rainOf "12-24" today)%Z;
      destruct (snd (windOf "00-12" today) >? snd (windOf "12-24" today))%Z;
      reflexivity.
  - unfold rainierPeriod.
    destruct (Z.gtb_spec (rainOf "00-12" today) (rainOf "12-24" today)); lia.
Qed.

Lemma C4_half_day_summary_witness :
  hasPeriod "00-12" rainyDay = true /\
  hasPeriod "12-24" rainyDay = true /\
  buildWeatherSummary rainyForecast
  = Ok "🌧️ Madrid: Muy nuboso con lluvia 15°C-24°C (💧 80%) ↙️ 20 km/h".
Proof.
  split; [reflexivity | split; [reflexivity |]].
  exact (proj1 (C4_half_day_summary rainyForecast rainyDay [] eq_refl
                  eq_refl eq_refl)).
Defined.

(** On a tie the afternoon is shown. *)
Example tie_shows_the_afternoon :
  chooseToday (dayWithRain 50 50) = ("Muy nuboso con lluvia", 50%Z, "NE", 20%Z)
  /\
  chooseToday (dayWithRain 51 50) = ("Poco nuboso", 51%Z, "NE", 20%Z).
Proof. split; reflexivity. Qed.

End SummaryClaims.

(* ===================================================================== *)
(** * Part III: further properties of the code                            *)
(* ===================================================================== *)

(** ** More on the directory *)
Section DirectoryMore.
Context `{Embedded}.



Lemma stripped_head (s : string) :
  TrimLeft s "id" = s -> HasPrefix s "i" = false /\ HasPrefix s "d" = false.
Proof.
  intros Hfix. pose proof (TrimLeftFunc_head (fun c => inCutset c "id") s) as Hh.
  unfold TrimLeft in Hfix. rewrite Hfix in Hh.
  destruct s as [|c s]; [split; reflexivity |].
  change (inCutset c "id")
    with (Ascii.eqb c "i" || (Ascii.eqb c "d" || false)) in Hh.
  apply orb_false_elim in Hh as [Hi Hd].
  rewrite orb_false_r in Hd.
  change (HasPrefix (String c s) "i") with (Ascii.eqb "i" c && true).
  change (HasPrefix (String c s) "d") with (Ascii.eqb "d" c && true).
  rewrite (Ascii.eqb_sym "i"), (Ascii.eqb_sym "d"), Hi, Hd. split; reflexivity.
Qed.

(** [FindMunicipalityID] after a successful load, in terms of its loop. *)
Lemma FindMunicipalityID_scan (g g' : Globals) (name : string) :
  initializeMunicipalities g = (None, g') ->
  FindMunicipalityID name g
  = (match scanExactName (ToLower (TrimSpace name)) (municipalities g') with
     | Some id => Ok id
     | None => Err (ErrNew ("municipality not found: " +:+ name))
     end, g').
Proof.
  intros Hinit. unfold FindMunicipalityID, bind at 1. rewrite Hinit.
  unfold bind, get, ret. cbv beta iota zeta.
  now destruct (scanExactName _ _).
Qed.


(** X1. In every state that calls of the directory can reach, once the
    dataset is loaded no stored identifier starts with [i] or with [d]; in
    particular none carries the prefix ["id"], so the prefix test in
    [FindMunicipalityID] never fires. *)
Theorem X1_stored_identifiers_carry_no_prefix (g : Globals) :
  reachable g -> initialized g = true ->
  Forall (fun m => HasPrefix (ID m) "i" = false /\
                   HasPrefix (ID m) "d" = false /\
                   HasPrefix (ID m) "id" = false) (municipalities g).
Proof.
  intros Hr Hi. pose proof (reachable_stripped g Hr Hi) as Hs.
  eapply Forall_impl; [exact Hs |]. intros m Hm. cbv beta in Hm.
  destruct (stripped_head _ Hm) as [Hi' Hd'].
  repeat split; try assumption. now apply TrimLeft_id_fixed_no_prefix.
Qed.


Lemma run_calls_unreadable (e0 : error) (cs : list call) (g : Globals) :
  ReadFile "data/municipalities.json" = Err e0 ->
  initialized g = false ->
  snd (run_calls cs g)
  = {| municipalities := municipalities g; initialized := false;
       io_log := io_log g ++
         replicate (length cs) (IOReadFile "data/municipalities.json") |}.
Proof.
  intros Hread. revert g. induction cs as [|c cs IH]; intros g Hi.
  - simpl. rewrite app_nil_r. destruct g. simpl in Hi. now subst.
  - cbn [run_calls]. unfold bind at 1.
    pose proof (run_call_state c g) as Hc.
    rewrite (init_cold g Hi), Hread in Hc. cbv zeta in Hc.
    destruct (run_call c g) as [[] g1]. cbn [snd] in Hc. subst g1.
    rewrite IH by reflexivity. cbn [municipalities io_log length replicate].
    now rewrite <- app_assoc.
Qed.

(** X3. A failed load is not remembered. When the embedded file cannot be
    read, every call of the directory tries to read it again: after any
    sequence of calls from the start, the flag is still unset, no record is
    stored, and the file has been read once per call and never parsed. *)
Theorem X3_unreadable_file_is_read_at_every_call (e0 : error)
    (cs : list call) :
  ReadFile "data/municipalities.json" = Err e0 ->
  snd (run_calls cs start)
  = {| municipalities := []; initialized := false;
       io_log := replicate (length cs)
                   (IOReadFile "data/municipalities.json") |}.
Proof.
  intros Hread. now rewrite (run_calls_unreadable e0 cs start Hread).
Qed.

(** X4. [FindMunicipalityID] does not see white space around the query,
    except in its error message: after a successful load, a padded query
    finds the identifier that the bare query finds, and when the bare query
    finds nothing the error names the query as it was given. *)
Theorem X4_exact_name_ignores_padding (g g' : Globals) (l s r : string) :
  allSpace l = true -> allSpace r = true ->
  initializeMunicipalities g = (None, g') ->
  FindMunicipalityID (l +:+ s +:+ r) g
  = (match fst (FindMunicipalityID s g) with
     | Ok id => Ok id
     | Err _ =>
         Err (ErrNew ("municipality not found: " +:+ l +:+ s +:+ r))
     end, g').
Proof.
  intros Hl Hr Hinit.
  rewrite !(FindMunicipalityID_scan g g' _ Hinit), TrimSpace_pad by assumption.
  now destruct (scanExactName _ _).
Qed.

End DirectoryMore.

Section DirectoryMoreExamples.

Lemma loaded_sample_reachable : @reachable sampleEmbedded loaded_sample.
Proof. exact (@reachable_call sampleEmbedded start CallInitialize
                (@reachable_start sampleEmbedded)). Defined.

Lemma X1_stored_identifiers_carry_no_prefix_witness :
  @reachable sampleEmbedded loaded_sample /\
  initialized loaded_sample = true /\
  Forall (fun m => HasPrefix (ID m) "i" = false /\
                   HasPrefix (ID m) "d" = false /\
                   HasPrefix (ID m) "id" = false)
    (municipalities loaded_sample).
Proof.
  split; [exact loaded_sample_reachable | split; [reflexivity |]].
  exact (@X1_stored_identifiers_carry_no_prefix sampleEmbedded loaded_sample
           loaded_sample_reachable eq_refl).
Defined.


Lemma X3_unreadable_file_is_read_at_every_call_witness :
  snd (@run_calls missingEmbedded
         [CallGetAllMunicipalities; CallFindMunicipalityID "Madrid";
          CallGetMunicipalityByID "28079"] start)
  = {| municipalities := []; initialized := false;
       io_log := [ IOReadFile "data/municipalities.json";
                   IOReadFile "data/municipalities.json";
                   IOReadFile "data/municipalities.json" ] |}.
Proof.
  exact (@X3_unreadable_file_is_read_at_every_call missingEmbedded _
           [CallGetAllMunicipalities; CallFindMunicipalityID "Madrid";
            CallGetMunicipalityByID "28079"] eq_refl).
Defined.

Lemma X4_exact_name_ignores_padding_witness :
  @FindMunicipalityID sampleEmbedded ("  " +:+ "madrid" +:+ " ") start
  = (Ok "28079", loaded_sample) /\
  @FindMunicipalityID sampleEmbedded (" " +:+ "Madrit" +:+ " ") start
  = (Err (ErrNew "municipality not found:  Madrit "), loaded_sample).
Proof.
  split.
  - exact (@X4_exact_name_ignores_padding sampleEmbedded start loaded_sample
             "  " "madrid" " " eq_refl eq_refl eq_refl).
  - exact (@X4_exact_name_ignores_padding sampleEmbedded start loaded_sample
             " " "Madrit" " " eq_refl eq_refl eq_refl).
Defined.

End DirectoryMoreExamples.

(** ** More on the client *)
Section ConstructionMore.
Context {HC LG : Type} `{Environ}.

(** X5. [New] takes the API key from the configuration and, only when that
    is empty, from the environment variable [AEMET_API_KEY]; it fails
    exactly when both are empty. A client that [New] returns never has an
    empty key, keeps the station code, and keeps the HTTP client and the
    logger that were given, the defaults standing in for nil. *)
Theorem X5_New_resolves_the_key (defaultHTTPClient : HC) (stderrLogger : LG)
    (cfg : Config) (handles : Handles HC LG) :
  let key := if String.eqb (AemetApiKey cfg) ""
             then Getenv "AEMET_API_KEY" else AemetApiKey cfg in
  ((exists e, New defaultHTTPClient stderrLogger cfg handles = Err e) <->
   AemetApiKey cfg = "" /\ Getenv "AEMET_API_KEY" = "") /\
  (forall b, New defaultHTTPClient stderrLogger cfg handles = Ok b ->
     AemetApiKey (config (client b)) = key /\ key <> "" /\
     AemetWeatherStationCode (config (client b))
     = AemetWeatherStationCode cfg /\
     httpClient b = default defaultHTTPClient (HTTPClient handles) /\
     logger b = default stderrLogger (Logger handles)).
Proof.
  unfold New. change EnvAemetApiKey with "AEMET_API_KEY".
  destruct (String.eqb_spec (AemetApiKey cfg) "") as [Hc | Hc].
  - destruct (String.eqb_spec (Getenv "AEMET_API_KEY") "") as [He | He].
    + split; [split; [now intros _ | intros _; eexists; reflexivity] |].
      intros b [=].
    + split.
      * split; [intros [e [=]] | intros [_ Hne]; contradiction].
      * intros b [= <-]. cbn. repeat split. exact He.
  - split.
    + split; [intros [e [=]] | intros [Hne _]; contradiction].
    + intros b [= <-]. cbn. repeat split. exact Hc.
Qed.

End ConstructionMore.

Section ClientMore.
Context {W : Type} `{Remote W} `{Decoder (gmap string any)}.
Context {T : Type} `{Decoder T}.

Lemma HasSuffix_append (a suffix : string) :
  HasSuffix (a +:+ suffix) suffix = true.
Proof.
  induction a as [|c a IH].
  - rewrite append_nil_l. destruct suffix; simpl;
      now rewrite ?String.eqb_refl, ?Ascii.eqb_refl.
  - rewrite append_cons. cbn [HasSuffix]. rewrite IH. apply orb_true_r.
Qed.

Lemma firstURL_suffix (c : Client) (path : string) :
  HasSuffix (firstURL c path) ("?api_key=" +:+ AemetApiKey (config c)) = true.
Proof.
  unfold firstURL.
  rewrite <- (append_assoc aemetApi "/"),
          <- (append_assoc (aemetApi +:+ "/") path).
  apply HasSuffix_append.
Qed.

Lemma secondURL_suffix (c : Client) (data : gmap string any) :
  HasSuffix (secondURL c data) ("?api_key=" +:+ AemetApiKey (config c))
  = true.
Proof. unfold secondURL. apply HasSuffix_append. Qed.

(** The three ways in which [getRedir] ends. *)
Lemma getRedir_cases (c : Client) (path : string) (t : T) (p : Process W) :
  (exists err w1,
     getRedir c path t p
     = ((t, Some (ErrWrap "error requesting data: " err)),
        requested (firstURL c path) w1 p)) \/
  (exists err w1,
     getRedir c path t p
     = ((t, Some (ErrWrap "error decoding data: " err)),
        requested (firstURL c path) w1 p)) \/
  (exists data r2 w2,
     getRedir c path t p
     = (match r2 with
        | Err err => (t, Some (ErrWrap "error requesting data: " err))
        | Ok body2 =>
            match Decode body2 t with
            | (t', Some err) =>
                (t', Some (ErrWrap "error decoding data: " err))
            | (t', None) => (t', None)
            end
        end,
        {| world := w2;
           trace := trace p ++ [EvGet (firstURL c path);
                                EvGet (secondURL c data)] |})).
Proof.
  destruct (httpGet (firstURL c path) (world p)) as [[body | err] w1] eqn:Hg1.
  - destruct (Decode body (∅ : gmap string any)) as [data [err |]] eqn:Hd.
    + right; left. exists err, w1.
      exact (getRedir_first_decode_fails _ _ _ _ _ _ _ _ Hg1 Hd).
    + destruct (httpGet (secondURL c data) w1) as [r2 w2] eqn:Hg2.
      right; right. exists data, r2, w2.
      exact (getRedir_second_hop _ _ _ _ _ _ _ _ _ Hg1 Hd Hg2).
  - left. exists err, w1.
    exact (getRedir_first_request_fails _ _ _ _ _ _ Hg1).
Qed.

(** The requests of one invocation of [getRedir]. *)
Lemma getRedir_urls (c : Client) (path : string) (t : T)
    (p : Process W) :
  exists urls : list string,
    trace (snd (getRedir c path t p)) = trace p ++ map EvGet urls /\
    (urls = [firstURL c path] \/
     exists data, urls = [firstURL c path; secondURL c data]) /\
    Forall (fun u => HasSuffix u ("?api_key=" +:+ AemetApiKey (config c))
                     = true) urls.
Proof.
  destruct (getRedir_cases c path t p)
    as [(err & w1 & ->) | [(err & w1 & ->) | (data & r2 & w2 & ->)]].
  - exists [firstURL c path]. repeat split; [now left |].
    repeat constructor. apply firstURL_suffix.
  - exists [firstURL c path]. repeat split; [now left |].
    repeat constructor. apply firstURL_suffix.
  - exists [firstURL c path; secondURL c data].
    repeat split; [right; now exists data |].
    repeat constructor; [apply firstURL_suffix | apply secondURL_suffix].
Qed.


(** X7. A request that fails leaves the target as it was: when [getRedir]
    returns an "error requesting data", the contents of the target are those
    it was called with. *)
Theorem X7_request_error_leaves_target (c : Client) (path : string) (t : T)
    (p : Process W) (e : error) :
  snd (fst (getRedir c path t p)) = Some e ->
  isTransportError e = true ->
  fst (fst (getRedir c path t p)) = t.
Proof.
  destruct (getRedir_cases c path t p)
    as [(err & w1 & ->) | [(err & w1 & ->) | (data & r2 & w2 & ->)]];
    cbn [fst snd]; try reflexivity.
  destruct r2 as [body2 | err]; [| reflexivity].
  destruct (Decode body2 t) as [t' [err |]]; cbn [fst snd].
  - intros [= <-]. discriminate.
  - discriminate.
Qed.

End ClientMore.

Section RetryMore.
Context {W : Type} `{Remote W} `{Decoder (gmap string any)}.
Context {T : Type} `{Decoder T}.

Lemma gets_app (a b : list event) : gets (a ++ b) = gets a ++ gets b.
Proof. apply omap_app. Qed.

Lemma gets_gets (urls : list string) : gets (map EvGet urls) = urls.
Proof.
  induction urls as [|u urls IH]; [reflexivity |].
  unfold gets in *. simpl. now f_equal.
Qed.

(** What one invocation of [getRedir] adds to a trace, and the kind of
    error it can return. *)
Lemma getRedir_effect (c : Client) (path : string) (t : T) (q : Process W) :
  sleeps (trace (snd (getRedir c path t q))) = sleeps (trace q) /\
  (exists urls,
     gets (trace (snd (getRedir c path t q))) = gets (trace q) ++ urls /\
     (1 <= length urls <= 2)%nat) /\
  (forall e, snd (fst (getRedir c path t q)) = Some e ->
             isFetchError e = true).
Proof.
  split; [apply getRedir_sleeps |].
  destruct (getRedir_cases c path t q)
    as [(err & w1 & ->) | [(err & w1 & ->) | (data & r2 & w2 & ->)]];
    cbn [fst snd requested trace].
  - split; [| now intros e [= <-]].
    exists [firstURL c path]. rewrite gets_app. split; [reflexivity | simpl; lia].
  - split; [| now intros e [= <-]].
    exists [firstURL c path]. rewrite gets_app. split; [reflexivity | simpl; lia].
  - split.
    + exists [firstURL c path; secondURL c data]. rewrite gets_app.
      split; [reflexivity | simpl; lia].
    + destruct r2 as [body2 | err]; [| now intros e [= <-]].
      destruct (Decode body2 t) as [t' [err |]]; cbn [fst snd];
        [now intros e [= <-] | discriminate].
Qed.

Lemma retryLoop_first_ok (c : Client) (path : string) (n : nat) (t t' : T)
    (lastErr : option error) (p p' : Process W) :
  getRedir c path t p = ((t', None), p') ->
  retryLoop c path (S n) 0 t lastErr p = ((t', None), p').
Proof.
  intros Hg. simpl. unfold bind at 1. unfold ret at 1. unfold bind at 1.
  rewrite Hg. reflexivity.
Qed.

Lemma retryLoop_retry_ok (c : Client) (path : string) (n : nat)
    (attempt : Z) (t t' : T) (lastErr : option error) (p p' : Process W) :
  (0 < attempt)%Z ->
  getRedir c path t
    (retrying (attempt + 1) (baseBackoffMs * 2 ^ (attempt - 1)) p)
  = ((t', None), p') ->
  retryLoop c path (S n) attempt t lastErr p = ((t', None), p').
Proof.
  intros Hpos Hg. cbn [retryLoop].
  replace (attempt >? 0)%Z with true by (symmetry; lia).
  unfold bind at 1. unfold bind at 1. unfold Printf at 1, Sleep at 1, modify.
  unfold bind at 1.
  cbn [world trace]. rewrite <- app_assoc. cbn [app].
  match goal with
  | |- (let (_, _) := getRedir c path t ?q in _) = _ =>
      change q
        with (retrying (attempt + 1) (baseBackoffMs * 2 ^ (attempt - 1)) p)
  end.
  rewrite Hg. reflexivity.
Qed.

(** The retry loop from a retry on: with [n] iterations left it sleeps the
    backoffs of the attempts it makes and of no other. *)
Lemma retryLoop_envelope (c : Client) (path : string) (n : nat) :
  forall (a : Z) (t : T) (lastErr : option error) (p : Process W),
    (0 < a)%Z ->
    exists (j : nat) (urls : list string),
      (j <= n)%nat /\
      sleeps (trace (snd (retryLoop c path n a t lastErr p)))
      = sleeps (trace p) ++ take j (map backoffAt (attemptsFrom a n)) /\
      gets (trace (snd (retryLoop c path n a t lastErr p)))
      = gets (trace p) ++ urls /\
      (j <= length urls <= 2 * j)%nat /\
      (snd (fst (retryLoop c path n a t lastErr p)) = None \/
       j = n /\
       exists le,
         snd (fst (retryLoop c path n a t lastErr p))
         = Some (attemptsError le) /\
         (le = lastErr \/ exists e, le = Some e /\ isFetchError e = true)).
Proof.
  induction n as [|n IH]; intros a t lastErr p Ha.
  - exists 0%nat, []. cbn [retryLoop ret fst snd take].
    rewrite !app_nil_r.
    split; [lia |]. split; [reflexivity |]. split; [reflexivity |].
    split; [simpl; lia |].
    right. split; [reflexivity |]. exists lastErr. now split; [| left].
  - set (q := retrying (a + 1) (baseBackoffMs * 2 ^ (a - 1)) p).
    destruct (getRedir_effect c path t q) as (Hsl & (u & Hu & Hlen) & Herr).
    assert (Hq : sleeps (trace q) = sleeps (trace p) ++ [backoffAt a]).
    { unfold q, retrying. cbn [trace]. rewrite sleeps_app. reflexivity. }
    assert (Hgq : gets (trace q) = gets (trace p)).
    { unfold q, retrying. cbn [trace]. rewrite gets_app. cbn.
      now rewrite app_nil_r. }
    destruct (getRedir c path t q) as [[t' [e |]] p'] eqn:Hg;
      cbn [fst snd] in *.
    + rewrite (retryLoop_retry_fails c path n a t t' lastErr p p' e Ha Hg).
      destruct (IH (a + 1)%Z t' (Some e) (failed (a + 1) e p') ltac:(lia))
        as (j & urls & Hj & Hs & Hgs & Hl & Hres).
      exists (S j), (u ++ urls). split; [lia |].
      split; [| split; [| split]].
      * rewrite Hs. unfold failed. cbn [trace]. rewrite sleeps_app.
        cbn [sleeps omap]. rewrite app_nil_r, Hsl, Hq, <- app_assoc.
        reflexivity.
      * rewrite Hgs. unfold failed. cbn [trace]. rewrite gets_app.
        cbn [gets omap]. rewrite app_nil_r, Hu, Hgq, <- app_assoc.
        reflexivity.
      * rewrite length_app. lia.
      * destruct Hres as [Hok | [-> (le & Hle & Hwhich)]]; [now left |].
        right. split; [reflexivity |]. exists le. split; [exact Hle |].
        right. destruct Hwhich as [-> | Hsome]; [| exact Hsome].
        exists e. split; [reflexivity | now apply Herr].
    + rewrite (retryLoop_retry_ok c path n a t t' lastErr p p' Ha Hg).
      exists 1%nat, u. cbn [fst snd]. split; [lia |].
      split; [| split; [| split]].
      * rewrite Hsl, Hq. reflexivity.
      * now rewrite Hu, Hgq.
      * lia.
      * now left.
Qed.

(** What any run of [getRedirWithRetry] looks like. *)
Lemma getRedirWithRetry_envelope (c : Client) (path : string) (t : T)
    (p : Process W) :
  exists (k : nat) (urls : list string),
    (k <= 3)%nat /\
    sleeps (trace (snd (getRedirWithRetry c path t p)))
    = sleeps (trace p) ++ take k backoffs /\
    gets (trace (snd (getRedirWithRetry c path t p)))
    = gets (trace p) ++ urls /\
    (k + 1 <= length urls <= 2 * (k + 1))%nat /\
    (snd (fst (getRedirWithRetry c path t p)) = None \/
     k = 3%nat /\
     exists e,
       snd (fst (getRedirWithRetry c path t p))
       = Some (ErrWrap "request failed after 4 attempts: " e) /\
       isFetchError e = true).
Proof.
  unfold getRedirWithRetry. change (Z.to_nat (maxRetries + 1)) with 4%nat.
  destruct (getRedir_effect c path t p) as (Hsl & (u & Hu & Hlen) & Herr).
  destruct (getRedir c path t p) as [[t' [e |]] p'] eqn:Hg;
    cbn [fst snd] in *.
  - rewrite (retryLoop_first_fails c path 3 t t' None p p' e Hg).
    destruct (retryLoop_envelope c path 3 1 t' (Some e) (failed 1 e p')
                eq_refl) as (j & urls & Hj & Hs & Hgs & Hl & Hres).
    exists j, (u ++ urls). split; [exact Hj |].
    split; [| split; [| split]].
    + rewrite Hs. unfold failed. cbn [trace]. rewrite sleeps_app.
      cbn [sleeps omap]. rewrite app_nil_r, Hsl. reflexivity.
    + rewrite Hgs. unfold failed. cbn [trace]. rewrite gets_app.
      cbn [gets omap]. rewrite app_nil_r, Hu, <- app_assoc. reflexivity.
    + rewrite length_app. lia.
    + destruct Hres as [Hok | [-> (le & Hle & Hwhich)]]; [now left |].
      right. split; [reflexivity |].
      destruct Hwhich as [-> | (e' & -> & He')].
      * exists e. split; [exact Hle | now apply Herr].
      * exists e'. split; [exact Hle | exact He'].
  - rewrite (retryLoop_first_ok c path 3 t t' None p p' Hg).
    exists 0%nat, u. cbn [fst snd take]. rewrite app_nil_r.
    split; [lia |]. split; [exact Hsl |]. split; [exact Hu |].
    split; [lia | now left].
Qed.

(** X8. When the first attempt succeeds, [getRedirWithRetry] is [getRedir]:
    the same result and the same process, with no line logged and no
    sleep. *)
Theorem X8_retry_is_transparent_on_success (c : Client) (path : string)
    (t t' : T) (p p' : Process W) :
  getRedir c path t p = ((t', None), p') ->
  getRedirWithRetry c path t p = getRedir c path t p.
Proof.
  intros Hg. unfold getRedirWithRetry.
  change (Z.to_nat (maxRetries + 1)) with 4%nat.
  now rewrite (retryLoop_first_ok c path 3 t t' None p p' Hg), Hg.
Qed.

(** X9. In every world, [getRedirWithRetry] sleeps a prefix of 100ms, 200ms
    and 400ms (at most 700ms in all), makes between [k+1] and [2(k+1)]
    requests when it has slept [k] times, and either succeeds or, after
    three sleeps, returns "request failed after 4 attempts: " wrapping an
    error of [getRedir]. *)
Theorem X9_retry_envelope (c : Client) (path : string) (t : T)
    (p : Process W) :
  exists (k : nat) (urls : list string),
    (k <= 3)%nat /\
    sleeps (trace (snd (getRedirWithRetry c path t p)))
    = sleeps (trace p) ++ take k backoffs /\
    gets (trace (snd (getRedirWithRetry c path t p)))
    = gets (trace p) ++ urls /\
    (k + 1 <= length urls <= 2 * (k + 1))%nat /\
    (snd (fst (getRedirWithRetry c path t p)) = None \/
     k = 3%nat /\
     exists e,
       snd (fst (getRedirWithRetry c path t p))
       = Some (ErrWrap "request failed after 4 attempts: " e) /\
       isFetchError e = true).
Proof. apply getRedirWithRetry_envelope. Qed.

End RetryMore.

Section RetryTrace.
Context {W : Type} `{Remote W} `{Decoder (gmap string any)}.
Context {T : Type} `{Decoder T}.

Lemma getRedir_first_event (c : Client) (path : string) (t : T)
    (p : Process W) :
  exists evs,
    trace (snd (getRedir c path t p))
    = trace p ++ EvGet (firstURL c path) :: evs.
Proof.
  destruct (getRedir_cases c path t p)
    as [(err & w1 & ->) | [(err & w1 & ->) | (data & r2 & w2 & ->)]];
    cbn [snd requested trace]; eexists; reflexivity.
Qed.

(** The retry loop only adds to the trace. *)
Lemma retryLoop_extends (c : Client) (path : string) (n : nat) :
  forall (a : Z) (t : T) (lastErr : option error) (p : Process W),
    (0 <= a)%Z ->
    exists evs,
      trace (snd (retryLoop c path n a t lastErr p)) = trace p ++ evs.
Proof.
  induction n as [|n IH]; intros a t lastErr p Ha.
  - exists []. cbn. now rewrite app_nil_r.
  - destruct (Z.eq_dec a 0%Z) as [-> | Hne].
    + destruct (getRedir_trace c path t p) as [urls Hu].
      destruct (getRedir c path t p) as [[t' [e |]] p'] eqn:Hg;
        cbn [snd] in Hu.
      * rewrite (retryLoop_first_fails c path n t t' lastErr p p' e Hg).
        destruct (IH 1%Z t' (Some e) (failed 1 e p') ltac:(lia))
          as [evs ->].
        unfold failed. cbn [trace]. rewrite Hu, <- !app_assoc.
        eexists; reflexivity.
      * rewrite (retryLoop_first_ok c path n t t' lastErr p p' Hg).
        cbn [snd]. rewrite Hu. eexists; reflexivity.
    + set (q := retrying (a + 1) (baseBackoffMs * 2 ^ (a - 1)) p).
      destruct (getRedir_trace c path t q) as [urls Hu].
      destruct (getRedir c path t q) as [[t' [e |]] p'] eqn:Hg;
        cbn [snd] in Hu.
      * rewrite (retryLoop_retry_fails c path n a t t' lastErr p p' e
                   ltac:(lia) Hg).
        destruct (IH (a + 1)%Z t' (Some e) (failed (a + 1) e p')
                    ltac:(lia)) as [evs ->].
        unfold failed. cbn [trace]. rewrite Hu. unfold q, retrying.
        cbn [trace]. rewrite <- !app_assoc. eexists; reflexivity.
      * rewrite (retryLoop_retry_ok c path n a t t' lastErr p p'
                   ltac:(lia) Hg).
        cbn [snd]. rewrite Hu. unfold q, retrying. cbn [trace].
        rewrite <- !app_assoc. eexists; reflexivity.
Qed.

(** The first thing [getRedirWithRetry] does is the first request. *)
Lemma getRedirWithRetry_first_event (c : Client) (path : string) (t : T)
    (p : Process W) :
  exists evs,
    trace (snd (getRedirWithRetry c path t p))
    = trace p ++ EvGet (firstURL c path) :: evs.
Proof.
  unfold getRedirWithRetry. change (Z.to_nat (maxRetries + 1)) with 4%nat.
  destruct (getRedir_first_event c path t p) as [evs Hevs].
  destruct (getRedir c path t p) as [[t' [e |]] p'] eqn:Hg; cbn [snd] in Hevs.
  - rewrite (retryLoop_first_fails c path 3 t t' None p p' e Hg).
    destruct (retryLoop_extends c path 3 1 t' (Some e) (failed 1 e p')
                ltac:(lia)) as [more ->].
    unfold failed. cbn [trace]. rewrite Hevs, <- !app_assoc.
    eexists; reflexivity.
  - rewrite (retryLoop_first_ok c path 3 t t' None p p' Hg).
    cbn [snd]. rewrite Hevs. eexists; reflexivity.
Qed.

End RetryTrace.

Section StationsMore.
Context {W : Type} `{Remote W} `{Decoder (gmap string any)}.
Context `{Decoder (list WeatherStation.t)}.

(** X10. [GetStations] does not retry: it makes one or two requests, the
    first to the inventory endpoint, and logs nothing and never sleeps.
    Every error it returns is "error requesting data: " wrapping the error
    of [getRedir], also when that error is a decoding error. *)
Theorem X10_GetStations_does_not_retry (c : Client) (p : Process W) :
  (exists urls,
     trace (snd (GetStations c p)) = trace p ++ map EvGet urls /\
     (1 <= length urls <= 2)%nat /\
     head urls
     = Some (firstURL c
         "api/valores/climatologicos/inventarioestaciones/todasestaciones")) /\
  (forall e, fst (GetStations c p) = Err e ->
     exists e', e = ErrWrap "error requesting data: " e' /\
                isFetchError e' = true).
Proof.
  set (path :=
    "api/valores/climatologicos/inventarioestaciones/todasestaciones").
  assert (Hcode : GetStations c p
    = (match snd (fst (getRedir c path [] p)) with
       | Some err => Err (ErrWrap "error requesting data: " err)
       | None => Ok (fst (fst (getRedir c path [] p)))
       end, snd (getRedir c path [] p))).
  { unfold GetStations, bind. fold path.
    now destruct (getRedir c path [] p) as [[st [e |]] q]. }
  rewrite Hcode. cbn [fst snd].
  destruct (getRedir_effect c path ([] : list WeatherStation.t) p)
    as (_ & _ & Herr).
  split.
  - destruct (getRedir_urls c path ([] : list WeatherStation.t) p)
      as (urls & Htr & Hurls & _).
    exists urls. split; [exact Htr |].
    destruct Hurls as [-> | [data ->]]; split; simpl; try lia; reflexivity.
  - intros e He.
    destruct (snd (fst (getRedir c path [] p))) as [e' |]; [| discriminate].
    injection He as <-. exists e'. split; [reflexivity | now apply Herr].
Qed.

End StationsMore.

Section ForecastMore.
Context {W : Type} `{Remote W} `{Decoder (gmap string any)}.
Context `{Decoder (list (option Municipality.t))}.

(** [GetForecastFor] in terms of the retried fetch. *)
Lemma GetForecastFor_unfold (c : Client) (muni : string) (p : Process W) :
  GetForecastFor c muni p
  = (match getRedirWithRetry c
             ("api/prediccion/especifica/municipio/diaria/" +:+ muni) [] p
     with
     | ((_, Some err), _) => Err (ErrWrap "error requesting data: " err)
     | (([], None), _) =>
         Err (ErrNew ("no data found for municipality " +:+ muni))
     | ((m0 :: _, None), _) => Ok m0
     end,
     snd (getRedirWithRetry c
            ("api/prediccion/especifica/municipio/diaria/" +:+ muni) [] p)).
Proof.
  unfold GetForecastFor, bind.
  now destruct (getRedirWithRetry c _ [] p) as [[[| m0 m] [e |]] q].
Qed.

(** The errors of [GetForecastFor]. *)
Lemma GetForecastFor_errors (c : Client) (muni : string) (p : Process W)
    (e : error) :
  fst (GetForecastFor c muni p) = Err e ->
  (e = ErrNew ("no data found for municipality " +:+ muni) /\
   fst (getRedirWithRetry c
          ("api/prediccion/especifica/municipio/diaria/" +:+ muni) [] p)
   = ([], None)) \/
  (exists e',
     e = ErrWrap "error requesting data: "
           (ErrWrap "request failed after 4 attempts: " e') /\
     isFetchError e' = true /\
     sleeps (trace (snd (GetForecastFor c muni p)))
     = sleeps (trace p) ++ backoffs).
Proof.
  rewrite GetForecastFor_unfold. cbn [fst snd].
  destruct (getRedirWithRetry_envelope c
              ("api/prediccion/especifica/municipio/diaria/" +:+ muni)
              ([] : list (option Municipality.t)) p)
    as (k & urls & _ & Hs & _ & _ & Hres).
  destruct (getRedirWithRetry c _ [] p) as [[[| m0 m] [err |]] q];
    cbn [fst snd] in *; try discriminate.
  - intros [= <-]. right.
    destruct Hres as [[=] | [-> (e' & [= ->] & He')]].
    exists e'. split; [reflexivity | split; [exact He' | exact Hs]].
  - intros [= <-]. now left.
  - intros [= <-]. right.
    destruct Hres as [[=] | [-> (e' & [= ->] & He')]].
    exists e'. split; [reflexivity | split; [exact He' | exact Hs]].
Qed.

(** X11. [GetForecastFor] fails in two ways only: with "no data found for
    municipality <id>", when the fetch succeeded and decoded an empty
    sequence, or with "error requesting data: request failed after 4
    attempts: " wrapping an error of [getRedir], and then it has slept
    100ms, 200ms and 400ms. *)
Theorem X11_forecast_fails_in_two_ways (c : Client) (muni : string)
    (p : Process W) (e : error) :
  fst (GetForecastFor c muni p) = Err e ->
  (e = ErrNew ("no data found for municipality " +:+ muni) /\
   fst (getRedirWithRetry c
          ("api/prediccion/especifica/municipio/diaria/" +:+ muni) [] p)
   = ([], None)) \/
  (exists e',
     e = ErrWrap "error requesting data: "
           (ErrWrap "request failed after 4 attempts: " e') /\
     isFetchError e' = true /\
     sleeps (trace (snd (GetForecastFor c muni p)))
     = sleeps (trace p) ++ backoffs).
Proof. apply GetForecastFor_errors. Qed.

End ForecastMore.

Section ByNameMore.
Context `{Embedded} {W : Type} `{Remote W} `{Decoder (gmap string any)}.
Context `{Decoder (list (option Municipality.t))}.

(** X12. When the name cannot be resolved, because no record has it or
    because the dataset cannot be loaded, [GetForecastByName] returns the
    error of [FindMunicipalityID] as it is and the client does nothing: no
    request, no line logged, no sleep. *)
Theorem X12_unknown_name_sends_nothing (c : Client) (name : string)
    (s : Program W) (e : error) (g' : Globals) :
  FindMunicipalityID name (directory s) = (Err e, g') ->
  GetForecastByName c name s
  = (Err e, {| directory := g'; process := process s; stdout := stdout s |}).
Proof.
  intros Hfind. unfold GetForecastByName, bind, inDirectory.
  now rewrite Hfind.
Qed.

(** X13. When the name is resolved to an identifier, [GetForecastByName]
    first requests the daily forecast of that identifier, and it never
    fails with a [NotFound] error: its errors are those of
    [GetForecastFor]. *)
Theorem X13_known_name_is_never_not_found (c : Client) (name id : string)
    (s : Program W) (g' : Globals) :
  FindMunicipalityID name (directory s) = (Ok id, g') ->
  (exists evs,
     trace (process (snd (GetForecastByName c name s)))
     = trace (process s) ++
       EvGet (firstURL c
                ("api/prediccion/especifica/municipio/diaria/" +:+ id))
       :: evs) /\
  (forall e, fst (GetForecastByName c name s) = Err e ->
     isNotFound e = false /\ (isNoData e = true \/ isTransportError e = true)).
Proof.
  intros Hfind.
  assert (Hcode : GetForecastByName c name s
    = (fst (GetForecastFor c id (process s)),
       {| directory := g';
          process := snd (GetForecastFor c id (process s));
          stdout := stdout s |})).
  { unfold GetForecastByName, bind, inDirectory, inProcess. rewrite Hfind.
    cbn [directory process stdout].
    now destruct (GetForecastFor c id (process s)). }
  rewrite Hcode. cbn [fst snd process]. split.
  - rewrite GetForecastFor_unfold. cbn [snd].
    apply getRedirWithRetry_first_event.
  - intros e He.
    destruct (GetForecastFor_errors c id (process s) e He)
      as [[-> _] | (e' & -> & _)].
    + split; [reflexivity | left]. unfold isNoData. apply HasPrefix_append.
    + split; [reflexivity | now right].
Qed.

End ByNameMore.

(** ** The client in the small worlds, continued *)
Section ClientMoreExamples.

Example New_in_the_small_environments :
  @NewWithDefaults unit unit keyInEnv tt tt
  = Ok {| client := sampleClient; httpClient := tt; logger := tt |} /\
  @NewWithDefaults unit unit emptyEnv tt tt
  = Err (ErrNew
      "AemetApiKey is required (set via Config or AEMET_API_KEY environment variable)")
  /\
  @New unit unit emptyEnv tt tt
    {| AemetApiKey := "K2"; AemetWeatherStationCode := "3195" |}
    {| HTTPClient := None; Logger := None |}
  = Ok {| client :=
            {| config := {| AemetApiKey := "K2";
                            AemetWeatherStationCode := "3195" |} |};
          httpClient := tt; logger := tt |}.
Proof. repeat split. Qed.

Lemma X7_request_error_leaves_target_witness :
  let r := getRedir_in (answering "{}" payloadBody) "api/x"
             (<["old" := AnyNil]> ∅) idle in
  isTransportError <$> snd (fst r) = Some true /\
  fst (fst r) = <["old" := AnyNil]> ∅.
Proof.
  split; [reflexivity |].
  exact (@X7_request_error_leaves_target nat (answering "{}" payloadBody)
           sampleObjectDecoder (gmap string any) sampleObjectDecoder
           sampleClient "api/x" (<["old" := AnyNil]> ∅) idle _
           eq_refl eq_refl).
Defined.

Lemma X8_retry_is_transparent_on_success_witness :
  getRedirWithRetry_in (answering datosBody payloadBody) "api/x" ∅ idle
  = getRedir_in (answering datosBody payloadBody) "api/x" ∅ idle /\
  snd (fst (getRedir_in (answering datosBody payloadBody) "api/x" ∅ idle))
  = None.
Proof.
  split; [| reflexivity].
  exact (@X8_retry_is_transparent_on_success nat
           (answering datosBody payloadBody) sampleObjectDecoder
           (gmap string any) sampleObjectDecoder sampleClient "api/x" ∅ _
           idle _ eq_refl).
Defined.

Lemma X11_forecast_fails_in_two_ways_witness :
  (exists e,
     fst (GetForecastFor_in unreachableRemote "28079" idle) = Err e) /\
  sleeps (trace (snd (GetForecastFor_in unreachableRemote "28079" idle)))
  = backoffs.
Proof.
  split; [eexists; reflexivity |].
  destruct (@X11_forecast_fails_in_two_ways nat unreachableRemote
              sampleObjectDecoder sampleForecastDecoder sampleClient "28079"
              idle _ eq_refl) as [[Hno _] | (e' & _ & _ & Hs)].
  - discriminate Hno.
  - exact Hs.
Defined.

Lemma X12_unknown_name_sends_nothing_witness :
  @GetForecastByName sampleEmbedded nat (answering datosBody "[]")
    sampleObjectDecoder sampleForecastDecoder sampleClient "Atlantis"
    (atRest start)
  = (Err (ErrNew "municipality not found: Atlantis"), atRest loaded_sample).
Proof.
  exact (@X12_unknown_name_sends_nothing sampleEmbedded nat
           (answering datosBody "[]") sampleObjectDecoder
           sampleForecastDecoder sampleClient "Atlantis" (atRest start)
           _ loaded_sample eq_refl).
Defined.

Lemma X13_known_name_is_never_not_found_witness :
  @FindMunicipalityID sampleEmbedded "madrid" start
  = (Ok "28079", loaded_sample) /\
  fst (@GetForecastByName sampleEmbedded nat (answering datosBody "[]")
         sampleObjectDecoder sampleForecastDecoder sampleClient "madrid"
         (atRest start))
  = Err (ErrNew "no data found for municipality 28079") /\
  isNotFound (ErrNew "no data found for municipality 28079") = false.
Proof.
  split; [reflexivity | split; [reflexivity |]].
  exact (proj1 (proj2 (@X13_known_name_is_never_not_found sampleEmbedded nat
                         (answering datosBody "[]") sampleObjectDecoder
                         sampleForecastDecoder sampleClient "madrid" "28079"
                         (atRest start) loaded_sample eq_refl)
                  _ eq_refl)).
Defined.

End ClientMoreExamples.

(** ** More on the period data of a day *)
Section PeriodsMore.

(** One loop body, seen at any key of the map. *)
Lemma periodAt_loopBody_slot (k periodo : string)
    (assign : PeriodData -> PeriodData) (x : Extracted) :
  periodAt (periodData (loopBody periodo assign x)) k
  = if String.eqb (slotOf periodo) k then assign (periodAt (periodData x) k)
    else periodAt (periodData x) k.
Proof.
  unfold loopBody, slotOf.
  destruct (String.eqb periodo "").
  - cbn [periodData]. apply periodAt_upsert.
  - rewrite periodData_markPeriod. apply periodAt_upsert.
Qed.

Lemma periodAt_loop_slot {E : Type} (per : E -> string)
    (asg : E -> PeriodData -> PeriodData) (k : string) (l : list E)
    (x : Extracted) :
  periodAt (periodData (loop per asg l x)) k
  = fold_left (fun pd e => asg e pd)
      (List.filter (fun e => String.eqb (slotOf (per e)) k) l)
      (periodAt (periodData x) k).
Proof.
  unfold loop. revert x.
  induction l as [|e l IH]; intros x; [reflexivity |].
  cbn [fold_left List.filter]. rewrite IH, periodAt_loopBody_slot.
  now destruct (String.eqb (slotOf (per e)) k).
Qed.

(** The keys of the map after one loop body and after one loop. *)
Lemma lookup_upsert (k key : string) (assign : PeriodData -> PeriodData)
    (x : Extracted) :
  is_Some (periodData (upsert key assign x) !! k)
  <-> k = key \/ is_Some (periodData x !! k).
Proof.
  unfold upsert. cbn [periodData].
  destruct (decide (key = k)) as [-> | Hne].
  - split; [now left |]. intros _.
    destruct (periodData x !! k); rewrite lookup_insert_eq; eauto.
  - destruct (periodData x !! key); rewrite lookup_insert_ne by exact Hne;
      (split; [now right | intros [-> | Hs]; [contradiction | exact Hs]]).
Qed.

Lemma lookup_loopBody (k periodo : string)
    (assign : PeriodData -> PeriodData) (x : Extracted) :
  is_Some (periodData (loopBody periodo assign x) !! k)
  <-> k = slotOf periodo \/ is_Some (periodData x !! k).
Proof.
  unfold loopBody, slotOf.
  destruct (String.eqb periodo "").
  - cbn [periodData]. apply lookup_upsert.
  - rewrite periodData_markPeriod. apply lookup_upsert.
Qed.

Lemma lookup_loop {E : Type} (per : E -> string)
    (asg : E -> PeriodData -> PeriodData) (k : string) (l : list E)
    (x : Extracted) :
  is_Some (periodData (loop per asg l x) !! k)
  <-> In k (map slotOf (map per l)) \/ is_Some (periodData x !! k).
Proof.
  unfold loop. revert x.
  induction l as [|e l IH]; intros x; cbn [fold_left map In].
  - tauto.
  - rewrite IH, lookup_loopBody. intuition congruence.
Qed.

Lemma has24hData_loopBody (periodo : string)
    (assign : PeriodData -> PeriodData) (x : Extracted) :
  has24hData (loopBody periodo assign x)
  = has24hData x || (String.eqb periodo "" || String.eqb periodo "00-24").
Proof.
  unfold loopBody, markPeriod.
  destruct (String.eqb_spec periodo "") as [-> | Hp].
  - cbn. now rewrite orb_true_r.
  - destruct (String.eqb_spec periodo "00-12") as [-> | H1]; cbn;
      [now rewrite orb_false_r |].
    destruct (String.eqb_spec periodo "12-24") as [-> | H2]; cbn;
      [now rewrite orb_false_r |].
    destruct (String.eqb periodo "00-24"); cbn.
    + now rewrite orb_true_r.
    + now rewrite orb_false_r.
Qed.

Lemma has24hData_loop {E : Type} (per : E -> string)
    (asg : E -> PeriodData -> PeriodData) (l : list E) (x : Extracted) :
  has24hData (loop per asg l x)
  = has24hData x ||
    existsb (fun k => String.eqb k "" || String.eqb k "00-24") (map per l).
Proof.
  unfold loop. revert x.
  induction l as [|e l IH]; intros x; cbn [fold_left existsb map].
  - now rewrite orb_false_r.
  - rewrite IH, has24hData_loopBody. now rewrite <- !orb_assoc.
Qed.

(** [extractPeriodData] as three loops. *)
Lemma extractPeriodData_loops (day : Dia.t) :
  extractPeriodData day
  = loop Viento.Periodo
      (fun e => withWind (Viento.Direccion e) (Viento.Velocidad e))
      (Dia.Viento day)
      (loop EstadoCielo.Periodo
         (fun e => withSkyDesc (EstadoCielo.Descripcion e))
         (Dia.EstadoCielo day)
         (loop ProbPrecipitacion.Periodo
            (fun e => withRainProb (ProbPrecipitacion.Value e))
            (Dia.ProbPrecipitacion day)
            {| periodData := ∅; hasMorningData := false;
               hasAfternoonData := false; has24hData := false |})).
Proof. reflexivity. Qed.

Lemma existsb_of_map {A B : Type} (f : B -> bool) (g : A -> B)
    (l : list A) :
  existsb f (map g l) = existsb (fun a => f (g a)) l.
Proof. induction l as [|a l IH]; simpl; [reflexivity | now rewrite IH]. Qed.

Lemma existsb_app_map (f : string -> bool) (a b c : list string) :
  existsb f (a ++ b ++ c) = existsb f a || existsb f b || existsb f c.
Proof. now rewrite !existsb_app, orb_assoc. Qed.

Lemma extractPeriodData_slot (k : string) (day : Dia.t) :
  periodAt (periodData (extractPeriodData day)) k
  = {| RainProb := rainIn k day; SkyDesc := skyIn k day;
       WindDir := fst (windIn k day); WindSpeed := snd (windIn k day) |}.
Proof.
  rewrite extractPeriodData_loops, !periodAt_loop_slot.
  rewrite fold_withWind, fold_withSkyDesc, fold_withRainProb.
  reflexivity.
Qed.

Lemma extractPeriodData_keys (k : string) (day : Dia.t) :
  is_Some (periodData (extractPeriodData day) !! k)
  <-> In k (map slotOf (periodsOf day)).
Proof.
  rewrite extractPeriodData_loops, !lookup_loop. cbn [periodData].
  unfold periodsOf. rewrite !map_app, !in_app_iff, lookup_empty.
  split; [| tauto].
  intros [Hw | [Hs | [Hp | Hnone]]]; [tauto | tauto | tauto |].
  now destruct Hnone.
Qed.

Lemma extractPeriodData_has24h (day : Dia.t) :
  has24hData (extractPeriodData day) = hasWholeDay day.
Proof.
  rewrite extractPeriodData_loops, !has24hData_loop. cbn [has24hData].
  unfold hasWholeDay, periodsOf. now rewrite existsb_app_map.
Qed.

(** X14. The map that [extractPeriodData] returns has an entry exactly for
    the slots of the entries of the day: ["default"] for an empty period
    key, the period key itself otherwise. In particular it is empty when
    the three arrays are. *)
Theorem X14_period_map_has_the_slots_of_the_day (k : string) (day : Dia.t) :
  is_Some (periodData (extractPeriodData day) !! k)
  <-> In k (map slotOf (periodsOf day)).
Proof. apply extractPeriodData_keys. Qed.

(** X15. Under every key, [extractPeriodData] holds the values of the last
    entry of each array that is stored under that key; a field for which
    no entry is stored under the key is zero. Entries whose period key is
    literally ["default"] share the slot of the entries without period
    key. *)
Theorem X15_period_values_are_the_last_of_their_slot (k : string)
    (day : Dia.t) :
  periodAt (periodData (extractPeriodData day)) k
  = {| RainProb := rainIn k day; SkyDesc := skyIn k day;
       WindDir := fst (windIn k day); WindSpeed := snd (windIn k day) |}.
Proof. apply extractPeriodData_slot. Qed.

(** X16. The three flags of [extractPeriodData]: the morning flag is set
    exactly when some entry has the period key ["00-12"], the afternoon flag
    when some entry has ["12-24"], and the whole-day flag when some entry
    has the key ["00-24"] or no period key. *)
Theorem X16_period_flags (day : Dia.t) :
  hasMorningData (extractPeriodData day)
  = existsb (fun k => String.eqb k "00-12") (periodsOf day) /\
  hasAfternoonData (extractPeriodData day)
  = existsb (fun k => String.eqb k "12-24") (periodsOf day) /\
  has24hData (extractPeriodData day)
  = existsb (fun k => String.eqb k "" || String.eqb k "00-24")
      (periodsOf day).
Proof.
  destruct (extractPeriodData_flags day) as [-> ->].
  rewrite extractPeriodData_has24h.
  unfold hasPeriod, hasWholeDay, periodsOf.
  rewrite !existsb_app_map, !existsb_of_map.
  repeat split.
Qed.

End PeriodsMore.

Section SummaryMore.

(** X17. In [get24hPeriodData] the values stored under ["00-24"] come
    first: a rain probability other than 0, a sky description and a wind
    direction other than the empty string are kept, with the wind speed that
    goes with the direction. The values stored under ["default"] only fill
    what is missing: a rain probability above 0, the sky description, and
    the wind direction together with its speed; without a ["default"] entry
    the ["00-24"] values are returned as they are. *)
Theorem X17_whole_day_values_come_first (pd : gmap string PeriodData) :
  let a := periodAt pd "00-24" in
  let d := get24hPeriodData pd in
  (pd !! "default" = None -> d = a) /\
  (RainProb a <> 0%Z -> RainProb d = RainProb a) /\
  (SkyDesc a <> "" -> SkyDesc d = SkyDesc a) /\
  (WindDir a <> "" -> WindDir d = WindDir a /\ WindSpeed d = WindSpeed a) /\
  (forall b, pd !! "default" = Some b ->
     (RainProb a = 0%Z -> RainProb d = Z.max 0 (RainProb b)) /\
     (SkyDesc a = "" -> SkyDesc d = SkyDesc b) /\
     (WindDir a = "" -> WindDir b <> "" ->
      WindDir d = WindDir b /\ WindSpeed d = WindSpeed b) /\
     (WindDir a = "" -> WindDir b = "" ->
      WindDir d = "" /\ WindSpeed d = WindSpeed a)).
Proof.
  cbv zeta. unfold get24hPeriodData.
  set (a := periodAt pd "00-24").
  destruct (pd !! "default") as [b |].
  - destruct ((RainProb a =? 0)%Z && (RainProb b >? 0)%Z) eqn:C1;
      cbn [SkyDesc withRainProb];
      destruct (String.eqb (SkyDesc a) "" &&
                negb (String.eqb (SkyDesc b) "")) eqn:C2;
      cbn [WindDir withSkyDesc withRainProb];
      destruct (String.eqb (WindDir a) "" &&
                negb (String.eqb (WindDir b) "")) eqn:C3;
      cbn [RainProb SkyDesc WindDir WindSpeed withWind withSkyDesc
           withRainProb];
      repeat match goal with
        | H : _ && _ = true |- _ => apply andb_true_iff in H
        | H : _ && _ = false |- _ => apply andb_false_iff in H
        | H : _ /\ _ |- _ => destruct H
        | H : _ \/ _ |- _ => destruct H
        | H : (_ =? _)%Z = true |- _ => apply Z.eqb_eq in H
        | H : (_ =? _)%Z = false |- _ => apply Z.eqb_neq in H
        | H : (_ >? _)%Z = true |- _ => apply Z.gtb_lt in H
        | H : (_ >? _)%Z = false |- _ => rewrite Z.gtb_ltb, Z.ltb_ge in H
        | H : negb _ = true |- _ => apply negb_true_iff in H
        | H : negb _ = false |- _ => apply negb_false_iff in H
        | H : String.eqb _ _ = true |- _ => apply String.eqb_eq in H
        | H : String.eqb _ _ = false |- _ => apply String.eqb_neq in H
        end;
      (split; [discriminate |]);
      repeat (first [split | intro]);
      try match goal with
        | H : Some _ = Some _ |- _ => injection H as <-
        end;
      first [reflexivity | congruence | lia | contradiction].
  - repeat split; intros; first [reflexivity | discriminate].
Qed.

(** What [chooseToday] does outside the half-day case. *)
Lemma chooseToday_whole_day (today : Dia.t) :
  hasPeriod "00-12" today && hasPeriod "12-24" today = false ->
  chooseToday today
  = if hasWholeDay today then
      let data := get24hPeriodData (periodData (extractPeriodData today)) in
      (SkyDesc data, RainProb data, WindDir data, WindSpeed data)
    else ("", 0%Z, "", 0%Z).
Proof.
  intros Hhalf. unfold chooseToday.
  destruct (extractPeriodData_flags today) as [-> ->].
  rewrite Hhalf, extractPeriodData_has24h. reflexivity.
Qed.

(** X18. A day that has data for one half only, or for none, and no
    whole-day entry is summarised without its data: the summary shows no
    sky description, no rain probability and no wind, under the sun
    emoji. *)
Theorem X18_half_day_alone_is_not_shown (mun : Municipality.t)
    (today : Dia.t) (rest : list Dia.t) :
  Prediccion.Dia (Municipality.Prediccion mun) = today :: rest ->
  hasPeriod "00-12" today && hasPeriod "12-24" today = false ->
  hasWholeDay today = false ->
  buildWeatherSummary mun
  = Ok ("☀️ " +:+ Municipality.Nombre mun +:+ ":  " +:+
        itoa (Temperatura.Minima (Dia.Temperatura today)) +:+ "°C-" +:+
        itoa (Temperatura.Maxima (Dia.Temperatura today)) +:+ "°C").
Proof.
  intros Hdia Hhalf Hwhole. unfold buildWeatherSummary. rewrite Hdia.
  rewrite (chooseToday_whole_day today Hhalf), Hwhole. reflexivity.
Qed.

Lemma filter_all {A : Type} (f : A -> bool) (l : list A) :
  Forall (fun a => f a = true) l -> List.filter f l = l.
Proof.
  induction 1 as [| a l Ha _ IH]; [reflexivity |].
  simpl. now rewrite Ha, IH.
Qed.

Lemma filter_none {A : Type} (f : A -> bool) (l : list A) :
  Forall (fun a => f a = false) l -> List.filter f l = [].
Proof.
  induction 1 as [| a l Ha _ IH]; [reflexivity |].
  simpl. now rewrite Ha.
Qed.

(** The arrays of a day all of whose entries carry the period key [k]. *)
Lemma periodsOf_all (k : string) (day : Dia.t) :
  Forall (fun k' => k' = k) (periodsOf day) ->
  Forall (fun e => ProbPrecipitacion.Periodo e = k)
    (Dia.ProbPrecipitacion day) /\
  Forall (fun e => EstadoCielo.Periodo e = k) (Dia.EstadoCielo day) /\
  Forall (fun e => Viento.Periodo e = k) (Dia.Viento day).
Proof.
  unfold periodsOf. rewrite !Forall_app, !Forall_map. tauto.
Qed.

Lemma slot_values_of_uniform_day (k slot : string) (day : Dia.t) :
  Forall (fun k' => k' = k) (periodsOf day) ->
  rainIn slot day = (if String.eqb (slotOf k) slot then lastRain day else 0%Z)
  /\
  skyIn slot day = (if String.eqb (slotOf k) slot then lastSky day else "") /\
  windIn slot day
  = (if String.eqb (slotOf k) slot then lastWind day else ("", 0%Z)).
Proof.
  intros Hall. destruct (periodsOf_all k day Hall) as (Hp & Hs & Hw).
  unfold rainIn, skyIn, windIn, lastRain, lastSky, lastWind.
  destruct (String.eqb (slotOf k) slot) eqn:Hk.
  - rewrite !filter_all; [tauto | | |];
      (eapply Forall_impl; [eassumption |]); intros e ->; exact Hk.
  - rewrite !filter_none; [tauto | | |];
      (eapply Forall_impl; [eassumption |]); intros e ->; exact Hk.
Qed.

Lemma existsb_uniform (f : string -> bool) (k : string) (l : list string) :
  Forall (fun k' => k' = k) l -> l <> [] -> existsb f l = f k.
Proof.
  induction 1 as [| k0 ks -> Hks IH]; [contradiction |]. intros _.
  simpl. destruct ks as [|k1 ks]; [apply orb_false_r |].
  rewrite IH by discriminate. apply orb_diag.
Qed.

Lemma uniform_day_flags (k : string) (day : Dia.t) :
  Forall (fun k' => k' = k) (periodsOf day) ->
  periodsOf day <> [] ->
  hasPeriod "00-12" day = String.eqb k "00-12" /\
  hasPeriod "12-24" day = String.eqb k "12-24" /\
  hasWholeDay day = (String.eqb k "" || String.eqb k "00-24") /\
  In (slotOf k) (map slotOf (periodsOf day)).
Proof.
  intros Hall Hne.
  assert (Hex : forall f : string -> bool,
             existsb f (periodsOf day) = f k).
  { intros f. now apply existsb_uniform. }
  assert (Hm' : hasPeriod "00-12" day
                = existsb (fun k => String.eqb k "00-12") (periodsOf day)).
  { unfold hasPeriod, periodsOf.
    now rewrite !existsb_app_map, !existsb_of_map. }
  assert (Ha' : hasPeriod "12-24" day
                = existsb (fun k => String.eqb k "12-24") (periodsOf day)).
  { unfold hasPeriod, periodsOf.
    now rewrite !existsb_app_map, !existsb_of_map. }
  rewrite Hm', Ha'. unfold hasWholeDay. rewrite !Hex.
  repeat split.
  destruct (periodsOf day) as [|k0 ks]; [contradiction |].
  apply Forall_cons in Hall as [-> _]. now left.
Qed.

(** X19. A day whose entries carry no period key is summarised by its last
    entries: the last sky description, the last rain probability when it is
    above 0, and the last wind when it has a direction; a wind speed without
    direction is dropped. *)
Theorem X19_day_without_period_keys (day : Dia.t) :
  Forall (fun k => k = "") (periodsOf day) ->
  periodsOf day <> [] ->
  chooseToday day
  = (lastSky day, Z.max 0 (lastRain day),
     fst (if String.eqb (fst (lastWind day)) "" then ("", 0%Z)
          else lastWind day),
     snd (if String.eqb (fst (lastWind day)) "" then ("", 0%Z)
          else lastWind day)).
Proof.
  intros Hall Hne.
  destruct (uniform_day_flags "" day Hall Hne) as (Hm & Ha & Hw & Hin).
  rewrite chooseToday_whole_day by (now rewrite Hm).
  rewrite Hw. cbv zeta.
  apply extractPeriodData_keys in Hin as [b Hb].
  pose proof (extractPeriodData_slot "default" day) as Hd.
  unfold periodAt in Hd. change (slotOf "") with "default" in Hb.
  rewrite Hb in Hd. simpl in Hd. subst b.
  destruct (slot_values_of_uniform_day "" "default" day Hall)
    as (Hr1 & Hs1 & Hw1).
  destruct (slot_values_of_uniform_day "" "00-24" day Hall)
    as (Hr0 & Hs0 & Hw0).
  cbn in Hr1, Hs1, Hw1, Hr0, Hs0, Hw0.
  unfold get24hPeriodData. rewrite Hb, (extractPeriodData_slot "00-24" day).
  rewrite Hr0, Hs0, Hw0, Hr1, Hs1, Hw1.
  cbn [RainProb SkyDesc WindDir WindSpeed fst snd Z.eqb andb].
  destruct (Z.gtb_spec (lastRain day) 0) as [Hpos | Hneg];
    destruct (String.eqb_spec (lastSky day) "") as [Hsky | Hsky];
    destruct (String.eqb_spec (fst (lastWind day)) "") as [Hdir | Hdir];
    cbn; rewrite ?Hsky; cbn;
    try rewrite (proj2 (String.eqb_neq _ _) Hsky);
    try rewrite (proj2 (String.eqb_neq _ _) Hdir);
    rewrite ?Hdir; cbn;
    repeat f_equal; first [reflexivity | lia | congruence].
Qed.

(** X20. A day whose entries all carry the key ["00-24"] is summarised by
    its last entries as they are. *)
Theorem X20_day_with_whole_day_keys (day : Dia.t) :
  Forall (fun k => k = "00-24") (periodsOf day) ->
  periodsOf day <> [] ->
  chooseToday day
  = (lastSky day, lastRain day, fst (lastWind day), snd (lastWind day)).
Proof.
  intros Hall Hne.
  destruct (uniform_day_flags "00-24" day Hall Hne) as (Hm & Ha & Hw & _).
  rewrite chooseToday_whole_day by (now rewrite Hm).
  rewrite Hw. cbv zeta.
  assert (Hno : periodData (extractPeriodData day) !! "default" = None).
  { apply eq_None_not_Some. rewrite extractPeriodData_keys.
    intros Hin. apply in_map_iff in Hin as (k & Hk & Hin).
    rewrite Forall_forall in Hall.
    apply list_elem_of_In, Hall in Hin. subst k. discriminate Hk. }
  unfold get24hPeriodData. rewrite Hno, (extractPeriodData_slot "00-24" day).
  destruct (slot_values_of_uniform_day "00-24" "00-24" day Hall)
    as (-> & -> & ->).
  reflexivity.
Qed.

(** X21. [buildWeatherSummary] fails exactly when the forecast has no day,
    with "no forecast data available", and it reads the name and the first
    day only: two forecasts with the same name and the same first day have
    the same summary. *)
Theorem X21_summary_reads_the_first_day (mun : Municipality.t) :
  ((exists e, buildWeatherSummary mun = Err e) <->
   Prediccion.Dia (Municipality.Prediccion mun) = []) /\
  (Prediccion.Dia (Municipality.Prediccion mun) = [] ->
   buildWeatherSummary mun = Err (ErrNew "no forecast data available")) /\
  (forall mun' : Municipality.t,
     Municipality.Nombre mun' = Municipality.Nombre mun ->
     head (Prediccion.Dia (Municipality.Prediccion mun'))
     = head (Prediccion.Dia (Municipality.Prediccion mun)) ->
     buildWeatherSummary mun' = buildWeatherSummary mun).
Proof.
  unfold buildWeatherSummary. split; [| split].
  - destruct (Prediccion.Dia (Municipality.Prediccion mun)) as [|today rest].
    + split; [reflexivity | intros _; eexists; reflexivity].
    + destruct (chooseToday today) as [[[sky rain] dir] speed].
      split; [intros [e [=]] | discriminate].
  - now intros ->.
  - intros mun' Hname Hhead. rewrite Hname.
    destruct (Prediccion.Dia (Municipality.Prediccion mun)) as [|today rest];
      destruct (Prediccion.Dia (Municipality.Prediccion mun'))
        as [|today' rest']; try discriminate Hhead; [reflexivity |].
    now injection Hhead as ->.
Qed.

End SummaryMore.

Section SummaryMoreExamples.

Lemma X18_half_day_alone_is_not_shown_witness :
  hasPeriod "00-12" morningOnlyDay && hasPeriod "12-24" morningOnlyDay
  = false /\
  hasWholeDay morningOnlyDay = false /\
  buildWeatherSummary (forecastOf "Madrid" [morningOnlyDay; rainyDay])
  = Ok "☀️ Madrid:  7°C-12°C".
Proof.
  split; [reflexivity | split; [reflexivity |]].
  exact (X18_half_day_alone_is_not_shown
           (forecastOf "Madrid" [morningOnlyDay; rainyDay]) morningOnlyDay
           [rainyDay] eq_refl eq_refl eq_refl).
Defined.

Lemma X19_day_without_period_keys_witness :
  Forall (fun k => k = "") (periodsOf farDay) /\
  chooseToday farDay = ("Despejado", 0%Z, "", 0%Z).
Proof.
  assert (Hall : Forall (fun k => k = "") (periodsOf farDay))
    by (repeat constructor).
  split; [exact Hall |].
  exact (X19_day_without_period_keys farDay Hall
           ltac:(discriminate)).
Defined.

Lemma X20_day_with_whole_day_keys_witness :
  Forall (fun k => k = "00-24") (periodsOf allDay) /\
  chooseToday allDay = ("Poco nuboso", 5%Z, "SW", 10%Z).
Proof.
  assert (Hall : Forall (fun k => k = "00-24") (periodsOf allDay))
    by (repeat constructor).
  split; [exact Hall |].
  exact (X20_day_with_whole_day_keys allDay Hall ltac:(discriminate)).
Defined.

Example summaries_of_the_sample_days :
  buildWeatherSummary (forecastOf "Madrid" [farDay])
  = Ok "☀️ Madrid: Despejado 18°C-30°C" /\
  buildWeatherSummary (forecastOf "Madrid" [allDay])
  = Ok "🌤️ Madrid: Poco nuboso 16°C-27°C (💧 5%) ↗️ 10 km/h" /\
  buildWeatherSummary (forecastOf "Madrid" [])
  = Err (ErrNew "no forecast data available").
Proof. repeat split. Qed.

End SummaryMoreExamples.

(** ** The day command *)
Section DayMore.
Context `{Embedded} {W : Type} `{Remote W} `{Decoder (gmap string any)}.
Context `{Decoder (list (option Municipality.t))}.

(** [getDayForecastSummaryByID] in terms of [GetForecastFor]. *)
Lemma getDayForecastSummaryByID_unfold (c : Client) (id : string)
    (s : Program W) :
  getDayForecastSummaryByID c id s
  = (match fst (GetForecastFor c id (process s)) with
     | Err err =>
         Returned (Err (ErrNew ("error getting weather data: " +:+ Error err)))
     | Ok mun => buildWeatherSummaryOf mun
     end,
     {| directory := directory s;
        process := snd (GetForecastFor c id (process s));
        stdout := stdout s |}).
Proof.
  unfold getDayForecastSummaryByID, bind, inProcess.
  now destruct (GetForecastFor c id (process s)) as [[mun | err] q].
Qed.

(** [getDayForecastSummary] in terms of the partial lookup and of
    [getDayForecastSummaryByID]. *)
Lemma getDayForecastSummary_unfold (c : Client) (name : string)
    (s : Program W) :
  getDayForecastSummary c name s
  = match FindMunicipalitiesByPartialName name (directory s) with
    | (Err err, g') =>
        (Returned
           (Err (ErrNew ("error finding municipalities: " +:+ Error err))),
         moved g' s)
    | (Ok [], g') =>
        (Returned
           (Err (ErrNew ("no municipalities found matching '" +:+ name
                         +:+ "'"))),
         moved g' s)
    | (Ok (m :: _), g') =>
        getDayForecastSummaryByID c (Directory.ID m) (moved g' s)
    end.
Proof.
  rewrite (surjective_pairing
             (FindMunicipalitiesByPartialName name (directory s))).
  unfold getDayForecastSummary, bind at 1. unfold inDirectory at 1.
  destruct (FindMunicipalitiesByPartialName name (directory s))
    as [[[| m ms] | err] g']; reflexivity.
Qed.

(** X22. When the partial lookup fails or matches nothing,
    [getDayForecastSummary] returns an error that carries only the text of
    the cause, and the client does nothing: no request, no line logged, no
    sleep. *)
Theorem X22_summary_of_unknown_city_sends_nothing (c : Client)
    (name : string) (s : Program W) (r : result (list MunicipalityInfo))
    (g' : Globals) :
  FindMunicipalitiesByPartialName name (directory s) = (r, g') ->
  (forall m ms, r <> Ok (m :: ms)) ->
  getDayForecastSummary c name s
  = (Returned
       (Err (ErrNew
               match r with
               | Err err => "error finding municipalities: " +:+ Error err
               | Ok _ => "no municipalities found matching '" +:+ name +:+ "'"
               end)),
     {| directory := g'; process := process s; stdout := stdout s |}).
Proof.
  intros Hfind Hnone. rewrite getDayForecastSummary_unfold, Hfind.
  destruct r as [[| m ms] | err]; [reflexivity | | reflexivity].
  now destruct (Hnone m ms).
Qed.

(** X23. [getDayForecastSummary] is [getDayForecastSummaryByID] on the
    stored identifier of the first record, in dataset order, that the
    partial lookup returns. *)
Theorem X23_summary_by_name_uses_the_first_match (c : Client)
    (name : string) (s : Program W) (m : MunicipalityInfo)
    (ms : list MunicipalityInfo) (g' : Globals) :
  FindMunicipalitiesByPartialName name (directory s) = (Ok (m :: ms), g') ->
  getDayForecastSummary c name s
  = getDayForecastSummaryByID c (Directory.ID m)
      {| directory := g'; process := process s; stdout := stdout s |}.
Proof.
  intros Hfind. now rewrite getDayForecastSummary_unfold, Hfind.
Qed.

(** The summary functions write nothing, and a summary they return is one
    that [buildWeatherSummary] built. *)
Lemma summary_call_effect (c : Client) (useIDs : bool) (city : string)
    (s : Program W) :
  stdout (snd ((if useIDs then getDayForecastSummaryByID c city
                else getDayForecastSummary c city) s)) = stdout s /\
  (forall text,
     fst ((if useIDs then getDayForecastSummaryByID c city
           else getDayForecastSummary c city) s) = Returned (Ok text) ->
     exists m, buildWeatherSummary m = Ok text).
Proof.
  assert (Hid : forall id s0,
    stdout (snd (getDayForecastSummaryByID c id s0)) = stdout s0 /\
    (forall text,
       fst (getDayForecastSummaryByID c id s0) = Returned (Ok text) ->
       exists m, buildWeatherSummary m = Ok text)).
  { intros id s0. rewrite getDayForecastSummaryByID_unfold.
    cbn [fst snd stdout]. split; [reflexivity |]. intros text.
    destruct (fst (GetForecastFor c id (process s0))) as [[m |] | err];
      cbn [buildWeatherSummaryOf]; try discriminate.
    intros [= Hm]. now exists m. }
  destruct useIDs; [apply Hid |].
  rewrite getDayForecastSummary_unfold.
  destruct (FindMunicipalitiesByPartialName city (directory s))
    as [[[| m ms] | err] g']; cbn [fst snd moved stdout];
    try (split; [reflexivity | discriminate]).
  apply (Hid (Directory.ID m) (moved g' s)).
Qed.

(** X24. A forecast sequence whose first element is null makes the summary
    panic: when [GetForecastFor] returns a nil forecast without error,
    [getDayForecastSummaryByID] dereferences it, and the loop of
    [dayCommand] ends there, without a line for that city or for the cities
    after it. *)
Theorem X24_null_forecast_panics (c : Client) (id : string)
    (rest : list string) (s : Program W) :
  fst (GetForecastFor c id (process s)) = Ok None ->
  fst (getDayForecastSummaryByID c id s)
  = Panicked
      "runtime error: invalid memory address or nil pointer dereference" /\
  fst (dayLoop c true (id :: rest) s)
  = Panicked
      "runtime error: invalid memory address or nil pointer dereference" /\
  stdout (snd (dayLoop c true (id :: rest) s)) = stdout s.
Proof.
  intros Hnil.
  assert (Hcall : getDayForecastSummaryByID c id s
    = (Panicked
         "runtime error: invalid memory address or nil pointer dereference",
       {| directory := directory s;
          process := snd (GetForecastFor c id (process s));
          stdout := stdout s |})).
  { rewrite getDayForecastSummaryByID_unfold, Hnil. reflexivity. }
  split; [now rewrite Hcall |].
  assert (Hloop : dayLoop c true (id :: rest) s
    = (Panicked
         "runtime error: invalid memory address or nil pointer dereference",
       {| directory := directory s;
          process := snd (GetForecastFor c id (process s));
          stdout := stdout s |})).
  { cbn [dayLoop]. unfold bind at 1. now rewrite Hcall. }
  rewrite Hloop. split; reflexivity.
Qed.

(** The loop of [dayCommand]: one line per city. *)
Lemma dayLoop_lines (c : Client) (useIDs : bool) (cities : list string) :
  forall (s s' : Program W) (r : option error),
    dayLoop c useIDs cities s = (Returned r, s') ->
    r = None /\
    exists lines,
      stdout s' = stdout s ++ lines /\
      Forall2 (fun city line =>
                 (exists err, line = "❌ " +:+ city +:+ ": " +:+ err) \/
                 (exists m, buildWeatherSummary m = Ok line))
        cities lines.
Proof.
  induction cities as [|city rest IH]; intros s s' r Hrun.
  - cbn in Hrun. injection Hrun as <- <-. split; [reflexivity |].
    exists []. rewrite app_nil_r. split; [reflexivity | constructor].
  - cbn [dayLoop] in Hrun. unfold bind at 1 in Hrun.
    destruct (summary_call_effect c useIDs city s) as [Hout Hbuilt].
    destruct ((if useIDs then getDayForecastSummaryByID c city
               else getDayForecastSummary c city) s) as [o s1].
    cbn [fst snd] in Hout, Hbuilt.
    destruct o as [[text | err] | msg]; [| | discriminate Hrun].
    + unfold bind, Println, modify in Hrun.
      destruct (IH _ _ _ Hrun) as [-> (lines & Hlines & Hall)].
      split; [reflexivity |]. exists (text :: lines).
      cbn [stdout] in Hlines. rewrite Hlines, Hout, <- app_assoc.
      split; [reflexivity |]. constructor; [| exact Hall].
      right. now apply Hbuilt.
    + unfold bind, Println, modify in Hrun.
      destruct (IH _ _ _ Hrun) as [-> (lines & Hlines & Hall)].
      split; [reflexivity |].
      exists (("❌ " +:+ city +:+ ": " +:+ Error err) :: lines).
      cbn [stdout] in Hlines. rewrite Hlines, Hout, <- app_assoc.
      split; [reflexivity |]. constructor; [| exact Hall].
      left. now exists (Error err).
Qed.

Context `{Environ}.

(** X25. [dayCommand] does nothing when it cannot start: without cities it
    returns "at least one city name is required", and without an API key in
    the environment it returns "error creating client: ..."; in both cases
    nothing is written, loaded or requested. *)
Theorem X25_day_command_guards (useIDs : bool) (s : Program W) :
  dayCommand [] useIDs s
  = (Returned (Some (ErrNew "at least one city name is required")), s) /\
  (Getenv "AEMET_API_KEY" = "" ->
   forall city rest,
     dayCommand (city :: rest) useIDs s
     = (Returned
          (Some (ErrNew
             "error creating client: AemetApiKey is required (set via Config or AEMET_API_KEY environment variable)")),
        s)).
Proof.
  split; [reflexivity |]. intros Henv city rest.
  unfold dayCommand, NewWithDefaults, New. cbn [AemetApiKey].
  change EnvAemetApiKey with "AEMET_API_KEY". rewrite Henv. reflexivity.
Qed.

(** X26. One failed city does not end the batch. When [dayCommand] has a
    key and at least one city and returns, it returns no error, and it has
    written the two heading lines followed by exactly one line per city, in
    the order of the cities: the summary of the city, or the cross mark,
    the city as given and the text of its error. *)
Theorem X26_day_command_writes_one_line_per_city (cities : list string)
    (useIDs : bool) (s s' : Program W) (r : option error) :
  Getenv "AEMET_API_KEY" <> "" ->
  cities <> [] ->
  dayCommand cities useIDs s = (Returned r, s') ->
  r = None /\
  exists lines,
    stdout s'
    = stdout s ++
      "🌤️  El tiempo hoy" ::
      "==============================================" :: lines /\
    Forall2 (fun city line =>
               (exists err, line = "❌ " +:+ city +:+ ": " +:+ err) \/
               (exists m, buildWeatherSummary m = Ok line))
      cities lines.
Proof.
  intros Henv Hne Hrun. destruct cities as [|city rest]; [contradiction |].
  unfold dayCommand, NewWithDefaults, New in Hrun. cbn [AemetApiKey] in Hrun.
  change EnvAemetApiKey with "AEMET_API_KEY" in Hrun.
  rewrite (proj2 (String.eqb_neq _ _) Henv) in Hrun.
  cbn [client] in Hrun. unfold bind at 1 2, Println, modify in Hrun.
  destruct (dayLoop_lines _ _ _ _ _ _ Hrun) as [-> (lines & Hlines & Hall)].
  split; [reflexivity |]. exists lines. split; [| exact Hall].
  cbn [stdout] in Hlines. rewrite Hlines, <- !app_assoc. reflexivity.
Qed.

End DayMore.

Section DayMoreExamples.

Lemma X22_summary_of_unknown_city_sends_nothing_witness :
  @getDayForecastSummary sampleEmbedded nat (answering datosBody "[forecast]")
    sampleObjectDecoder richForecastDecoder sampleClient "atlantis"
    (atRest start)
  = (Returned
       (Err (ErrNew "no municipalities found matching 'atlantis'")),
     atRest loaded_sample) /\
  @getDayForecastSummary missingEmbedded nat
    (answering datosBody "[forecast]") sampleObjectDecoder
    richForecastDecoder sampleClient "madrid" (atRest start)
  = (Returned
       (Err (ErrNew
          "error finding municipalities: error reading municipalities data: open data/municipalities.json: file does not exist")),
     atRest (snd (@initializeMunicipalities missingEmbedded start))).
Proof.
  split.
  - exact (@X22_summary_of_unknown_city_sends_nothing sampleEmbedded nat
             (answering datosBody "[forecast]") sampleObjectDecoder
             richForecastDecoder sampleClient "atlantis" (atRest start)
             (Ok []) loaded_sample eq_refl
             ltac:(intros m ms; discriminate)).
  - exact (@X22_summary_of_unknown_city_sends_nothing missingEmbedded nat
             (answering datosBody "[forecast]") sampleObjectDecoder
             richForecastDecoder sampleClient "madrid" (atRest start)
             (Err _) _ eq_refl ltac:(intros m ms; discriminate)).
Defined.

Lemma X23_summary_by_name_uses_the_first_match_witness :
  fst (@FindMunicipalitiesByPartialName sampleEmbedded "madrid" start)
  = Ok [record "28079" "Madrid"; record "28080" "MADRID"] /\
  @getDayForecastSummary sampleEmbedded nat (answering datosBody "[forecast]")
    sampleObjectDecoder richForecastDecoder sampleClient "madrid"
    (atRest start)
  = @getDayForecastSummaryByID nat
      (answering datosBody "[forecast]") sampleObjectDecoder
      richForecastDecoder sampleClient "28079" (atRest loaded_sample).
Proof.
  split; [reflexivity |].
  exact (@X23_summary_by_name_uses_the_first_match sampleEmbedded nat
           (answering datosBody "[forecast]") sampleObjectDecoder
           richForecastDecoder sampleClient "madrid" (atRest start)
           (record "28079" "Madrid") [record "28080" "MADRID"] loaded_sample
           eq_refl).
Defined.

Lemma X24_null_forecast_panics_witness :
  fst (@GetForecastFor nat (answering datosBody "[null]")
         sampleObjectDecoder richForecastDecoder sampleClient "28079" idle)
  = Ok None /\
  fst (@dayLoop sampleEmbedded nat (answering datosBody "[null]")
         sampleObjectDecoder richForecastDecoder sampleClient true
         ["28079"; "08019"] (atRest start))
  = Panicked
      "runtime error: invalid memory address or nil pointer dereference".
Proof.
  split; [reflexivity |].
  exact (proj1 (proj2 (@X24_null_forecast_panics sampleEmbedded nat
                         (answering datosBody "[null]") sampleObjectDecoder
                         richForecastDecoder sampleClient "28079" ["08019"]
                         (atRest start) eq_refl))).
Defined.

Example day_command_cannot_start :
  dayCommand_in unreachableRemote keyInEnv [] false (atRest start)
  = (Returned (Some (ErrNew "at least one city name is required")),
     atRest start) /\
  dayCommand_in unreachableRemote emptyEnv ["Madrid"] false (atRest start)
  = (Returned
       (Some (ErrNew
          "error creating client: AemetApiKey is required (set via Config or AEMET_API_KEY environment variable)")),
     atRest start).
Proof. split; reflexivity. Qed.

Lemma X26_day_command_writes_one_line_per_city_witness :
  let r := dayCommand_in (answering datosBody "[forecast]") keyInEnv
             ["madrid"; "atlantis"] false (atRest start) in
  fst r = Returned None /\
  stdout (snd r)
  = [ "🌤️  El tiempo hoy";
      "==============================================";
      "🌧️ Madrid: Muy nuboso con lluvia 15°C-24°C (💧 80%) ↙️ 20 km/h";
      "❌ atlantis: no municipalities found matching 'atlantis'" ] /\
  exists lines,
    stdout (snd r)
    = stdout (atRest start) ++
      "🌤️  El tiempo hoy" ::
      "==============================================" :: lines /\
    Forall2 (fun city line =>
               (exists err, line = "❌ " +:+ city +:+ ": " +:+ err) \/
               (exists m, buildWeatherSummary m = Ok line))
      ["madrid"; "atlantis"] lines.
Proof.
  split; [reflexivity | split; [reflexivity |]].
  exact (proj2 (@X26_day_command_writes_one_line_per_city sampleEmbedded nat
                  (answering datosBody "[forecast]") sampleObjectDecoder
                  richForecastDecoder keyInEnv ["madrid"; "atlantis"] false
                  (atRest start) _ None ltac:(discriminate)
                  ltac:(discriminate) eq_refl)).
Defined.

(** When every request fails, the line of the city carries the whole chain
    of causes. *)
Example day_command_when_unreachable :
  stdout (snd (dayCommand_in unreachableRemote keyInEnv ["28079"] true
                 (atRest start)))
  = [ "🌤️  El tiempo hoy";
      "==============================================";
      "❌ 28079: error getting weather data: error requesting data: request failed after 4 attempts: error requesting data: dial tcp: connection refused" ].
Proof. reflexivity. Qed.

End DayMoreExamples.

Section MoreWitnesses.

Lemma X5_New_resolves_the_key_witness :
  (exists e,
     @New unit unit emptyEnv tt tt
       {| AemetApiKey := ""; AemetWeatherStationCode := "" |}
       {| HTTPClient := None; Logger := None |} = Err e) /\
  (forall b,
     @New unit unit keyInEnv tt tt
       {| AemetApiKey := ""; AemetWeatherStationCode := "3195" |}
       {| HTTPClient := None; Logger := None |} = Ok b ->
     AemetApiKey (config (client b)) = "KEY" /\
     AemetWeatherStationCode (config (client b)) = "3195").
Proof.
  split.
  - exact (proj2 (proj1 (@X5_New_resolves_the_key unit unit emptyEnv tt tt
                           {| AemetApiKey := "";
                              AemetWeatherStationCode := "" |}
                           {| HTTPClient := None; Logger := None |}))
             (conj eq_refl eq_refl)).
  - intros b Hb.
    destruct (proj2 (@X5_New_resolves_the_key unit unit keyInEnv tt tt
                       {| AemetApiKey := "";
                          AemetWeatherStationCode := "3195" |}
                       {| HTTPClient := None; Logger := None |}) b Hb)
      as (Hkey & _ & Hcode & _).
    split; [exact Hkey | exact Hcode].
Defined.

Lemma X17_whole_day_values_come_first_witness :
  mixedPeriods !! "default"
  = Some {| RainProb := 40; SkyDesc := "Nuboso"; WindDir := "N";
            WindSpeed := 5 |} /\
  RainProb (get24hPeriodData mixedPeriods) = 40%Z /\
  SkyDesc (get24hPeriodData mixedPeriods) = "Nuboso" /\
  WindDir (get24hPeriodData mixedPeriods) = "N" /\
  WindSpeed (get24hPeriodData mixedPeriods) = 5%Z.
Proof.
  split; [reflexivity |].
  destruct (proj2 (proj2 (proj2 (proj2
              (X17_whole_day_values_come_first mixedPeriods)))) _ eq_refl)
    as (Hrain & Hsky & Hwind & _).
  split; [exact (Hrain eq_refl) | split; [exact (Hsky eq_refl) |]].
  exact (Hwind eq_refl ltac:(discriminate)).
Defined.

Lemma X21_summary_reads_the_first_day_witness :
  buildWeatherSummary (forecastOf "Madrid" [rainyDay; farDay; allDay])
  = buildWeatherSummary (forecastOf "Madrid" [rainyDay]) /\
  ((exists e, buildWeatherSummary (forecastOf "Madrid" []) = Err e) <->
   Prediccion.Dia (Municipality.Prediccion (forecastOf "Madrid" [])) = []).
Proof.
  split.
  - exact (proj2 (proj2 (X21_summary_reads_the_first_day
                           (forecastOf "Madrid" [rainyDay])))
             (forecastOf "Madrid" [rainyDay; farDay; allDay])
             eq_refl eq_refl).
  - exact (proj1 (X21_summary_reads_the_first_day (forecastOf "Madrid" []))).
Defined.

Lemma X25_day_command_guards_witness :
  dayCommand_in unreachableRemote emptyEnv ["Madrid"; "Vigo"] true
    (atRest start)
  = (Returned
       (Some (ErrNew
          "error creating client: AemetApiKey is required (set via Config or AEMET_API_KEY environment variable)")),
     atRest start).
Proof.
  exact (proj2 (@X25_day_command_guards sampleEmbedded nat unreachableRemote
                  sampleObjectDecoder richForecastDecoder emptyEnv true
                  (atRest start)) eq_refl "Madrid" ["Vigo"]).
Defined.

End MoreWitnesses.
